(** * OSR USB-FX2 Linux driver: a shallow embedding of [my_usb_driver.c]

    The driver's entry points are embedded as programs of a small monad
    over an explicit [world]: the device context [struct osrfx2], the
    registers of the board, the interrupt URB, the wait queue and the list
    of kernel services the driver has called.  Whatever the kernel decides
    (the status of a transfer, whether an allocation succeeds, whether a
    copy to user space faults) is an argument of the embedded function. *)

From Stdlib Require Import ZArith List String Ascii Bool Lia.
Import ListNotations.

Local Open Scope Z_scope.

(* ================================================================== *)
(** ** C integer types *)

Module CInt.

(** [unsigned char] / [__u8]: the low 8 bits. *)
Definition u8 (x : Z) : Z := Z.land x 0xFF.

(** [unsigned int]: arithmetic modulo 2^32. *)
Definition u32 (x : Z) : Z := x mod 2 ^ 32.

(** [int] and [atomic_t]: two's complement on 32 bits. *)
Definition s32 (x : Z) : Z := (x + 2 ^ 31) mod 2 ^ 32 - 2 ^ 31.

(** [size_t] and [unsigned long] (LP64 kernel): arithmetic modulo 2^64. *)
Definition BITS_PER_LONG : Z := 64.
Definition size_t (x : Z) : Z := x mod 2 ^ BITS_PER_LONG.

(** [ssize_t]: the signed reading of a [size_t] bit pattern. *)
Definition ssize_t (x : Z) : Z :=
  let y := size_t x in
  if y <? 2 ^ (BITS_PER_LONG - 1) then y else y - 2 ^ BITS_PER_LONG.

Definition is_u8 (x : Z) : Prop := 0 <= x <= 255.
Definition is_s32 (x : Z) : Prop := - 2 ^ 31 <= x < 2 ^ 31.
Definition is_size_t (x : Z) : Prop := 0 <= x < 2 ^ BITS_PER_LONG.

(** [acc |= e] where [acc] is an [unsigned char]. *)
Definition or_u8 (acc e : Z) : Z := u8 (Z.lor acc e).

Arguments size_t : simpl never.
Arguments ssize_t : simpl never.
Arguments s32 : simpl never.

End CInt.
Import CInt.

(* ================================================================== *)
(** ** Constants of the driver and of the kernel headers it includes *)

Definition READ_7SEG     : Z := 0xD4.
Definition SET_7SEG      : Z := 0xDB.
Definition READ_LEDS     : Z := 0xD7.
Definition SET_LEDS      : Z := 0xD8.
Definition READ_SWITCHES : Z := 0xD6.
Definition IS_HIGH_SPEED : Z := 0xD9.

(** errno.h *)
Definition ENOENT       : Z := 2.
Definition ENOMEM       : Z := 12.
Definition EFAULT       : Z := 14.
Definition EBUSY        : Z := 16.
Definition ENODEV       : Z := 19.
Definition EPIPE        : Z := 32.
Definition ECONNRESET   : Z := 104.
Definition ESHUTDOWN    : Z := 108.
Definition ETIMEDOUT    : Z := 110.
Definition EHOSTUNREACH : Z := 113.
Definition ERESTARTSYS  : Z := 512.

(** fcntl.h *)
Definition O_RDONLY  : Z := 0.
Definition O_WRONLY  : Z := 1.
Definition O_RDWR    : Z := 2.
Definition O_ACCMODE : Z := 3.

(** usb/ch9.h and usb.h *)
Definition USB_DIR_OUT          : Z := 0.
Definition USB_DIR_IN           : Z := 0x80.
Definition USB_TYPE_VENDOR      : Z := 0x40.
Definition USB_CTRL_GET_TIMEOUT : Z := 5000.

(* ================================================================== *)
(** ** Attribute translator: the bit tables of the sysfs attributes *)

Module Translator.

Local Open Scope string_scope.

(** [(byte & mask) ? "1" : "0"] *)
Definition bit_str (byte mask : Z) : string :=
  if (Z.land byte mask =? 0)%Z then "0" else "1".

(** The [sprintf] of [get_switches]: left switch to right switch. *)
Definition switches_format (switches : Z) : string :=
  bit_str switches 0x80 ++ bit_str switches 0x40 ++
  bit_str switches 0x20 ++ bit_str switches 0x10 ++
  bit_str switches 0x08 ++ bit_str switches 0x04 ++
  bit_str switches 0x02 ++ bit_str switches 0x01.

(** The [sprintf] of [get_bargraph]. *)
Definition bargraph_format (leds : Z) : string :=
  bit_str leds 0x10 ++ bit_str leds 0x08 ++
  bit_str leds 0x04 ++ bit_str leds 0x02 ++
  bit_str leds 0x01 ++ bit_str leds 0x80 ++
  bit_str leds 0x40 ++ bit_str leds 0x20.

(** The [sprintf] of [get_7segment]. *)
Definition segment_format (segments : Z) : string :=
  bit_str segments 0x08 ++ bit_str segments 0x20 ++
  bit_str segments 0x40 ++ bit_str segments 0x10 ++
  bit_str segments 0x80 ++ bit_str segments 0x04 ++
  bit_str segments 0x02 ++ bit_str segments 0x01.

(** The [else] branch of [set_bargraph]: eight [|=] on [fx2dev->leds],
    [value] being an [unsigned int]. *)
Definition bargraph_table (value leds : Z) : Z :=
  let leds := or_u8 leds (Z.land (Z.shiftr value 3) 0x01) in
  let leds := or_u8 leds (Z.land (Z.shiftr value 3) 0x02) in
  let leds := or_u8 leds (Z.land (Z.shiftr value 3) 0x04) in
  let leds := or_u8 leds (Z.land (Z.shiftr value 3) 0x08) in
  let leds := or_u8 leds (Z.land (Z.shiftr value 3) 0x10) in
  let leds := or_u8 leds (Z.land (u32 (Z.shiftl value 5)) 0x20) in
  let leds := or_u8 leds (Z.land (u32 (Z.shiftl value 5)) 0x40) in
  let leds := or_u8 leds (Z.land (u32 (Z.shiftl value 5)) 0x80) in
  leds.

(** The [else] branch of [set_7segment]. *)
Definition segment_table (value segments : Z) : Z :=
  let segments := or_u8 segments (Z.land value 0x01) in
  let segments := or_u8 segments (Z.land value 0x02) in
  let segments := or_u8 segments (Z.land value 0x04) in
  let segments := or_u8 segments (Z.land (Z.shiftr value 4) 0x08) in
  let segments := or_u8 segments (Z.land value 0x10) in
  let segments := or_u8 segments (Z.land (Z.shiftr value 1) 0x20) in
  let segments := or_u8 segments (Z.land (u32 (Z.shiftl value 1)) 0x40) in
  let segments := or_u8 segments (Z.land (u32 (Z.shiftl value 4)) 0x80) in
  segments.

(** Both set operations clear the cached byte first, so the table starts
    from 0. *)
Definition bargraph_set_remap (value : Z) : Z := bargraph_table value 0.
Definition segment_set_remap (value : Z) : Z := segment_table value 0.

(** What a reader of an attribute decodes from its eight characters:
    the number they spell in binary, first character most significant. *)
Fixpoint bin_value_from (acc : Z) (s : string) : Z :=
  match s with
  | EmptyString => acc
  | String c rest =>
      bin_value_from (2 * acc + (if Ascii.eqb c "1"%char then 1 else 0)) rest
  end.

Definition bin_value (s : string) : Z := bin_value_from 0 s.

(** The get tables as functions on bytes. *)
Definition bargraph_get_remap (leds : Z) : Z := bin_value (bargraph_format leds).
Definition segment_get_remap (segments : Z) : Z := bin_value (segment_format segments).

End Translator.
Import Translator.

(* ================================================================== *)
(** ** The device context *)

(** [struct osrfx2].  Pointers to kernel objects ([udev], the URBs, the
    bulk buffers), the endpoint intervals, the semaphore and the mutex
    carry no data of their own here: [interface] records whether
    [fx2dev->interface] is non-NULL, [int_in_buffer] is the content of the
    one-byte interrupt buffer, and [FieldEventQueue] lists the tasks
    sleeping on the wait queue. *)
Record osrfx2 : Type := mk_osrfx2 {
  interface : bool;
  FieldEventQueue : list nat;
  int_in_buffer : Z;
  bulk_in_size : Z;
  bulk_out_size : Z;
  int_in_endpointAddr : Z;
  bulk_in_endpointAddr : Z;
  bulk_out_endpointAddr : Z;
  kref : Z;
  switches : Z;
  segments : Z;
  leds : Z;
  bulk_write_available : Z;
  bulk_read_available : Z;
  pending_data : Z;
  suspended : Z
}.

Definition set_FieldEventQueue (q : list nat) (d : osrfx2) : osrfx2 :=
  mk_osrfx2 (interface d) q (int_in_buffer d) (bulk_in_size d)
    (bulk_out_size d) (int_in_endpointAddr d) (bulk_in_endpointAddr d)
    (bulk_out_endpointAddr d) (kref d) (switches d) (segments d) (leds d)
    (bulk_write_available d) (bulk_read_available d) (pending_data d)
    (suspended d).

Definition set_int_in_buffer (v : Z) (d : osrfx2) : osrfx2 :=
  mk_osrfx2 (interface d) (FieldEventQueue d) v (bulk_in_size d)
    (bulk_out_size d) (int_in_endpointAddr d) (bulk_in_endpointAddr d)
    (bulk_out_endpointAddr d) (kref d) (switches d) (segments d) (leds d)
    (bulk_write_available d) (bulk_read_available d) (pending_data d)
    (suspended d).

Definition set_kref (v : Z) (d : osrfx2) : osrfx2 :=
  mk_osrfx2 (interface d) (FieldEventQueue d) (int_in_buffer d)
    (bulk_in_size d) (bulk_out_size d) (int_in_endpointAddr d)
    (bulk_in_endpointAddr d) (bulk_out_endpointAddr d) v (switches d)
    (segments d) (leds d) (bulk_write_available d) (bulk_read_available d)
    (pending_data d) (suspended d).

Definition set_switches (v : Z) (d : osrfx2) : osrfx2 :=
  mk_osrfx2 (interface d) (FieldEventQueue d) (int_in_buffer d)
    (bulk_in_size d) (bulk_out_size d) (int_in_endpointAddr d)
    (bulk_in_endpointAddr d) (bulk_out_endpointAddr d) (kref d) v
    (segments d) (leds d) (bulk_write_available d) (bulk_read_available d)
    (pending_data d) (suspended d).

Definition set_segments (v : Z) (d : osrfx2) : osrfx2 :=
  mk_osrfx2 (interface d) (FieldEventQueue d) (int_in_buffer d)
    (bulk_in_size d) (bulk_out_size d) (int_in_endpointAddr d)
    (bulk_in_endpointAddr d) (bulk_out_endpointAddr d) (kref d)
    (switches d) v (leds d) (bulk_write_available d)
    (bulk_read_available d) (pending_data d) (suspended d).

Definition set_leds (v : Z) (d : osrfx2) : osrfx2 :=
  mk_osrfx2 (interface d) (FieldEventQueue d) (int_in_buffer d)
    (bulk_in_size d) (bulk_out_size d) (int_in_endpointAddr d)
    (bulk_in_endpointAddr d) (bulk_out_endpointAddr d) (kref d)
    (switches d) (segments d) v (bulk_write_available d)
    (bulk_read_available d) (pending_data d) (suspended d).

Definition set_bulk_write_available (v : Z) (d : osrfx2) : osrfx2 :=
  mk_osrfx2 (interface d) (FieldEventQueue d) (int_in_buffer d)
    (bulk_in_size d) (bulk_out_size d) (int_in_endpointAddr d)
    (bulk_in_endpointAddr d) (bulk_out_endpointAddr d) (kref d)
    (switches d) (segments d) (leds d) v (bulk_read_available d)
    (pending_data d) (suspended d).

Definition set_bulk_read_available (v : Z) (d : osrfx2) : osrfx2 :=
  mk_osrfx2 (interface d) (FieldEventQueue d) (int_in_buffer d)
    (bulk_in_size d) (bulk_out_size d) (int_in_endpointAddr d)
    (bulk_in_endpointAddr d) (bulk_out_endpointAddr d) (kref d)
    (switches d) (segments d) (leds d) (bulk_write_available d) v
    (pending_data d) (suspended d).

Definition set_pending_data (v : Z) (d : osrfx2) : osrfx2 :=
  mk_osrfx2 (interface d) (FieldEventQueue d) (int_in_buffer d)
    (bulk_in_size d) (bulk_out_size d) (int_in_endpointAddr d)
    (bulk_in_endpointAddr d) (bulk_out_endpointAddr d) (kref d)
    (switches d) (segments d) (leds d) (bulk_write_available d)
    (bulk_read_available d) v (suspended d).

Definition set_suspended (v : Z) (d : osrfx2) : osrfx2 :=
  mk_osrfx2 (interface d) (FieldEventQueue d) (int_in_buffer d)
    (bulk_in_size d) (bulk_out_size d) (int_in_endpointAddr d)
    (bulk_in_endpointAddr d) (bulk_out_endpointAddr d) (kref d)
    (switches d) (segments d) (leds d) (bulk_write_available d)
    (bulk_read_available d) (pending_data d) v.

(** [struct urb], as far as [osrfx2_write] reads and fills it. *)
Record urb : Type := mk_urb {
  transfer_dma : Z;
  transfer_buffer_length : Z;
  urb_endpoint : Z
}.

(* ================================================================== *)
(** ** The kernel and the board around the driver *)

(** Kernel services the driver calls, as they appear in the log. *)
Inductive kcall : Type :=
| k_usb_control_msg (request requesttype size timeout : Z)
| k_usb_bulk_msg (endpoint len timeout : Z)
| k_usb_submit_urb (endpoint len : Z)
| k_usb_kill_urb (endpoint : Z)
| k_usb_clear_halt (endpoint : Z)
| k_usb_free_coherent (size : Z)
| k_usb_free_urb
| k_wake_up
| k_dev_err (code : Z)
| k_osrfx2_delete.

(** A call that moves data over the bus. *)
Definition is_transfer (k : kcall) : bool :=
  match k with
  | k_usb_control_msg _ _ _ _ | k_usb_bulk_msg _ _ _ | k_usb_submit_urb _ _ => true
  | _ => false
  end.

Record world : Type := mk_world {
  fx2dev : osrfx2;
  board_leds : Z;          (* bar graph register of the board *)
  board_segments : Z;      (* 7-segment register of the board *)
  int_urb_active : bool;   (* the interrupt URB is submitted, not yet completed *)
  awake : list (nat * string); (* tasks woken from the wait queue, with the
                                  switches attribute as they find it *)
  open_files : list Z;     (* [f_flags] of the files open on the device node *)
  calls : list kcall       (* kernel services called so far, oldest first *)
}.

Definition with_fx2dev (d : osrfx2) (w : world) : world :=
  mk_world d (board_leds w) (board_segments w) (int_urb_active w) (awake w)
    (open_files w) (calls w).

Definition with_board_leds (v : Z) (w : world) : world :=
  mk_world (fx2dev w) v (board_segments w) (int_urb_active w) (awake w)
    (open_files w) (calls w).

Definition with_board_segments (v : Z) (w : world) : world :=
  mk_world (fx2dev w) (board_leds w) v (int_urb_active w) (awake w)
    (open_files w) (calls w).

Definition with_int_urb_active (b : bool) (w : world) : world :=
  mk_world (fx2dev w) (board_leds w) (board_segments w) b (awake w)
    (open_files w) (calls w).

Definition with_awake (l : list (nat * string)) (w : world) : world :=
  mk_world (fx2dev w) (board_leds w) (board_segments w) (int_urb_active w) l
    (open_files w) (calls w).

Definition with_open_files (l : list Z) (w : world) : world :=
  mk_world (fx2dev w) (board_leds w) (board_segments w) (int_urb_active w)
    (awake w) l (calls w).

Definition with_calls (l : list kcall) (w : world) : world :=
  mk_world (fx2dev w) (board_leds w) (board_segments w) (int_urb_active w)
    (awake w) (open_files w) l.

(* ================================================================== *)
(** ** The monad of driver code *)

(** A statement either falls through to the next one, executes a
    [return], or dereferences a NULL pointer. *)
Inductive outcome (R A : Type) : Type :=
| Next (a : A) (w : world)
| Return (r : R) (w : world)
| Oops (w : world).

Arguments Next {R A} a w.
Arguments Return {R A} r w.
Arguments Oops {R A} w.

Definition M (R A : Type) : Type := world -> outcome R A.

Definition ret {R A} (a : A) : M R A := fun w => Next a w.

Definition bind {R A B} (c : M R A) (k : A -> M R B) : M R B :=
  fun w =>
    match c w with
    | Next a w' => k a w'
    | Return r w' => Return r w'
    | Oops w' => Oops w'
    end.

Declare Scope driver_scope.
Delimit Scope driver_scope with drv.

Notation "x <- c1 ;; c2" := (bind c1 (fun x => c2))
  (at level 61, c1 at next level, right associativity) : driver_scope.
Notation "c1 ;; c2" := (bind c1 (fun _ => c2))
  (at level 61, right associativity) : driver_scope.

Local Open Scope driver_scope.

Definition return_ {R A} (r : R) : M R A := fun w => Return r w.

(** [p->field] on a pointer that may be NULL. *)
Definition deref {R A B} (p : option A) (field : A -> B) : M R B :=
  fun w =>
    match p with
    | Some a => Next (field a) w
    | None => Oops w
    end.

Definition load {R A} (field : osrfx2 -> A) : M R A :=
  fun w => Next (field (fx2dev w)) w.

Definition store {R} (update : osrfx2 -> osrfx2) : M R unit :=
  fun w => Next tt (with_fx2dev (update (fx2dev w)) w).

Definition log {R} (k : kcall) : M R unit :=
  fun w => Next tt (with_calls (calls w ++ [k]) w).

Definition when {R} (b : bool) (c : M R unit) : M R unit :=
  if b then c else ret tt.

(** What a call of a driver function leaves behind. *)
Inductive result (R : Type) : Type :=
| Returned (r : R)
| Crashed.

Arguments Returned {R} r.
Arguments Crashed {R}.

Definition run {R} (body : M R R) (w : world) : result R * world :=
  match body w with
  | Next r w' => (Returned r, w')
  | Return r w' => (Returned r, w')
  | Oops w' => (Crashed, w')
  end.

(** A [void] function called from inside another function. *)
Definition call_void {R} (body : M unit unit) : M R unit :=
  fun w =>
    match body w with
    | Next _ w' => Next tt w'
    | Return _ w' => Next tt w'
    | Oops w' => Oops w'
    end.

(* ================================================================== *)
(** ** Kernel services

    None of these is code of the driver.  Each takes what the kernel
    answers as its first argument and records the call. *)

(** The byte a control transfer points at: [&fx2dev->leds] or
    [&fx2dev->segments]. *)
Inductive ctrl_buffer : Type := buf_leds | buf_segments.

Definition ctrl_get (b : ctrl_buffer) : osrfx2 -> Z :=
  match b with buf_leds => leds | buf_segments => segments end.

Definition ctrl_set (b : ctrl_buffer) : Z -> osrfx2 -> osrfx2 :=
  match b with buf_leds => set_leds | buf_segments => set_segments end.

(** The board: a vendor request that moved its byte reads or writes the
    register the request names. *)
Definition board_answer (request : Z) (w : world) : option Z :=
  if request =? READ_LEDS then Some (board_leds w)
  else if request =? READ_7SEG then Some (board_segments w)
  else None.

Definition board_accept (request data : Z) (w : world) : world :=
  if request =? SET_LEDS then with_board_leds data w
  else if request =? SET_7SEG then with_board_segments data w
  else w.

(** [usb_control_msg]: [answer] is its return value, a negative errno or
    the number of bytes transferred.  The byte moves only when at least
    one byte was transferred. *)
Definition usb_control_msg {R} (answer : Z)
    (request requesttype : Z) (data : ctrl_buffer) (size timeout : Z) : M R Z :=
  fun w =>
    let w := with_calls (calls w ++ [k_usb_control_msg request requesttype size timeout]) w in
    let moved := 1 <=? answer in
    let w :=
      if negb moved then w
      else if Z.land requesttype USB_DIR_IN =? 0
           then board_accept request (ctrl_get data (fx2dev w)) w
           else match board_answer request w with
                | Some v => with_fx2dev (ctrl_set data (u8 v) (fx2dev w)) w
                | None => w
                end in
    Next answer w.

(** [usb_bulk_msg]: [answer] is its return value, 0 on success. *)
Definition usb_bulk_msg {R} (answer : Z) (endpoint len timeout : Z) : M R Z :=
  log (k_usb_bulk_msg endpoint len timeout) ;; ret answer.

(** [usb_submit_urb] on the interrupt URB: accepted when it returns 0. *)
Definition usb_submit_int_urb {R} (answer : Z) : M R Z :=
  ep <- load int_in_endpointAddr ;;
  log (k_usb_submit_urb ep 1) ;;
  (fun w => Next tt (if answer =? 0 then with_int_urb_active true w else w)) ;;
  ret answer.

(** [usb_submit_urb] on a bulk-out URB filled by [usb_fill_bulk_urb]. *)
Definition usb_submit_bulk_urb {R} (answer : Z) (u : urb) : M R Z :=
  log (k_usb_submit_urb (urb_endpoint u) (transfer_buffer_length u)) ;;
  ret answer.

Definition usb_clear_halt {R} (answer : Z) (endpoint : Z) : M R Z :=
  log (k_usb_clear_halt endpoint) ;; ret answer.

Definition usb_free_coherent {R} (size : Z) (addr : option Z) (dma : Z) : M R unit :=
  log (k_usb_free_coherent size).

Definition usb_free_urb {R} (u : option urb) : M R unit :=
  log k_usb_free_urb.

Definition dev_err {R} (code : Z) : M R unit := log (k_dev_err code).

(** [wake_up]: every task sleeping on the queue leaves it and finds the
    switches attribute as it is at that moment. *)
Definition wake_up {R} : M R unit :=
  log k_wake_up ;;
  (fun w =>
     let d := fx2dev w in
     let seen := map (fun t => (t, switches_format (switches d))) (FieldEventQueue d) in
     Next tt (with_awake (awake w ++ seen)
                (with_fx2dev (set_FieldEventQueue [] d) w))).

(** [atomic_dec_and_test] and [atomic_inc] on one of the two counters. *)
Definition atomic_dec_and_test {R}
    (get : osrfx2 -> Z) (set : Z -> osrfx2 -> osrfx2) : M R bool :=
  v <- load get ;;
  store (set (s32 (v - 1))) ;;
  ret (s32 (v - 1) =? 0).

Definition atomic_inc {R}
    (get : osrfx2 -> Z) (set : Z -> osrfx2 -> osrfx2) : M R unit :=
  v <- load get ;;
  store (set (s32 (v + 1))).

Definition kref_get {R} : M R unit :=
  v <- load kref ;; store (set_kref (v + 1)).

(** [kref_put(&fx2dev->kref, osrfx2_delete)] *)
Definition kref_put {R} : M R unit :=
  v <- load kref ;;
  store (set_kref (v - 1)) ;;
  when (v - 1 =? 0) (log k_osrfx2_delete).

(** [nonseekable_open] always returns 0. *)
Definition nonseekable_open {R} : M R Z := ret 0.

(** [sprintf]: the characters written and their number. *)
Definition sprintf (text : string) : Z * string :=
  (Z.of_nat (String.length text), text).

(** The value of a hexadecimal digit ([isxdigit], then [isdigit] or
    [TOLOWER]). *)
Definition digit_value (c : ascii) : option Z :=
  let n := Z.of_nat (nat_of_ascii c) in
  if (48 <=? n) && (n <=? 57) then Some (n - 48)
  else if (97 <=? n) && (n <=? 102) then Some (n - 97 + 10)
  else if (65 <=? n) && (n <=? 70) then Some (n - 65 + 10)
  else None.

(** The digit loop of [simple_strtoul], in [unsigned long] arithmetic;
    [consumed] counts the characters read. *)
Fixpoint strtoul_loop (base : Z) (cp : string) (result : Z) (consumed : Z) : Z * Z :=
  match cp with
  | EmptyString => (result, consumed)
  | String c rest =>
      match digit_value c with
      | None => (result, consumed)
      | Some value =>
          if value >=? base then (result, consumed)
          else strtoul_loop base rest (size_t (result * base + value)) (consumed + 1)
      end
  end.

(** Modelled from the spec: [simple_strtoul] is a routine of the kernel
    library, not of the driver; it parses the leading numeric prefix of
    the string as an unsigned number and reports where it stopped.  The
    result is the value read and the number of characters consumed
    ([buf == end] when that number is 0). *)
Definition simple_strtoul (cp : string) (base : Z) : Z * Z :=
  strtoul_loop base cp 0 0.

(* ================================================================== *)
(** ** The driver *)

Module Driver.

(** [interrupt_handler]; [status] is [urb->status], [*buf] is read from
    the interrupt buffer, [resubmit] is what [usb_submit_urb] returns. *)
Definition interrupt_handler (resubmit : Z) (status : Z) : M unit unit :=
  when (status =? 0)
    (buf <- load int_in_buffer ;;
     store (set_switches (u8 buf)) ;;
     wake_up ;;
     retval <- usb_submit_int_urb resubmit ;;
     when (negb (retval =? 0)) (dev_err retval) ;;
     return_ tt) ;;
  dev_err status.

(** [usb_kill_urb] on the interrupt URB: an active URB is completed with
    status [-ENOENT], which runs its handler. *)
Definition usb_kill_int_urb {R} : M R unit :=
  ep <- load int_in_endpointAddr ;;
  log (k_usb_kill_urb ep) ;;
  (fun w =>
     if int_urb_active w
     then call_void (interrupt_handler 0 (- ENOENT)) (with_int_urb_active false w)
     else Next tt w).

(** [osrfx2_suspend]; [sem] is what [down_interruptible] returns. *)
Definition osrfx2_suspend (sem : Z) : M Z Z :=
  when (negb (sem =? 0)) (return_ (- ERESTARTSYS)) ;;
  store (set_suspended 1) ;;
  usb_kill_int_urb ;;
  return_ 0.

(** [osrfx2_resume]; [submit] is what [usb_submit_urb] returns. *)
Definition osrfx2_resume (sem submit : Z) : M Z Z :=
  when (negb (sem =? 0)) (return_ (- ERESTARTSYS)) ;;
  store (set_suspended 0) ;;
  retval <- usb_submit_int_urb submit ;;
  when (negb (retval =? 0))
    (dev_err retval ;;
     when (retval =? - EHOSTUNREACH) (dev_err retval)) ;;
  return_ 0.

(** [osrfx2_open]; [found] and [intfdata] tell whether
    [usb_find_interface] and [usb_get_intfdata] return non-NULL,
    [halt_out] and [halt_in] are what the two [usb_clear_halt] return. *)
Definition osrfx2_open (found intfdata : bool) (halt_out halt_in : Z)
    (f_flags : Z) : M Z Z :=
  when (negb found) (return_ (- ENODEV)) ;;
  when (negb intfdata) (return_ (- ENODEV)) ;;
  let flags := Z.land f_flags O_ACCMODE in
  when ((flags =? O_WRONLY) || (flags =? O_RDWR))
    (acquired <- atomic_dec_and_test bulk_write_available set_bulk_write_available ;;
     when (negb acquired)
       (atomic_inc bulk_write_available set_bulk_write_available ;;
        return_ (- EBUSY)) ;;
     ep <- load bulk_out_endpointAddr ;;
     retval <- usb_clear_halt halt_out ep ;;
     when (negb (retval =? 0) && negb (retval =? - EPIPE)) (dev_err retval)) ;;
  when ((flags =? O_RDONLY) || (flags =? O_RDWR))
    (acquired <- atomic_dec_and_test bulk_read_available set_bulk_read_available ;;
     when (negb acquired)
       (atomic_inc bulk_read_available set_bulk_read_available ;;
        when (flags =? O_RDWR)
          (atomic_inc bulk_write_available set_bulk_write_available) ;;
        return_ (- EBUSY)) ;;
     ep <- load bulk_in_endpointAddr ;;
     retval <- usb_clear_halt halt_in ep ;;
     when (negb (retval =? 0) && negb (retval =? - EPIPE)) (dev_err retval)) ;;
  retval <- nonseekable_open ;;
  when (negb (retval =? 0)) (return_ retval) ;;
  kref_get ;;
  return_ 0.

(** [osrfx2_release]; [private_data] tells whether [file->private_data]
    is non-NULL. *)
Definition osrfx2_release (private_data : bool) (f_flags : Z) : M Z Z :=
  when (negb private_data) (return_ (- ENODEV)) ;;
  let flags := Z.land f_flags O_ACCMODE in
  when ((flags =? O_WRONLY) || (flags =? O_RDWR))
    (atomic_inc bulk_write_available set_bulk_write_available) ;;
  when ((flags =? O_RDONLY) || (flags =? O_RDWR))
    (atomic_inc bulk_read_available set_bulk_read_available) ;;
  kref_put ;;
  return_ 0.

(** [osrfx2_read]; [bulk] is what [usb_bulk_msg] returns, [bytes_read]
    what it stores through [&bytes_read], [not_copied] what
    [copy_to_user] returns.  [pending_data] is a [size_t] and [retval]
    an [int], so the subtraction is done on [size_t]. *)
Definition osrfx2_read (bulk bytes_read not_copied : Z) (count : Z) : M Z Z :=
  ep <- load bulk_in_endpointAddr ;;
  size <- load bulk_in_size ;;
  retval <- usb_bulk_msg bulk ep (Z.min size count) 10000 ;;
  when (retval =? 0)
    (let retval := if negb (not_copied =? 0) then - EFAULT else bytes_read in
     pending <- load pending_data ;;
     store (set_pending_data (size_t (pending - size_t retval))) ;;
     return_ retval) ;;
  return_ retval.

(** [osrfx2_write]; [new_urb] is what [usb_alloc_urb] returns, [new_buf]
    what [usb_alloc_coherent] returns (the address, and the bus address
    it stores in [urb->transfer_dma]), [not_copied] what [copy_from_user]
    returns, [submit] what [usb_submit_urb] returns. *)
Definition osrfx2_write (new_urb : option urb) (new_buf : option (Z * Z))
    (not_copied submit : Z) (count : Z) : M Z Z :=
  let buf : option Z := None in
  when (count =? 0) (return_ (ssize_t count)) ;;
  let urb := new_urb in
  when (match urb with None => true | Some _ => false end)
    (let retval := - ENOMEM in
     dma <- deref urb transfer_dma ;;
     usb_free_coherent count buf dma ;;
     usb_free_urb urb ;;
     return_ retval) ;;
  let buf := option_map fst new_buf in
  let urb := match new_buf with
             | Some (_, dma) =>
                 option_map (fun u => mk_urb dma (transfer_buffer_length u) (urb_endpoint u)) urb
             | None => urb
             end in
  when (match buf with None => true | Some _ => false end)
    (let retval := - ENOMEM in
     dma <- deref urb transfer_dma ;;
     usb_free_coherent count buf dma ;;
     usb_free_urb urb ;;
     return_ retval) ;;
  when (negb (not_copied =? 0))
    (let retval := - EFAULT in
     dma <- deref urb transfer_dma ;;
     usb_free_coherent count buf dma ;;
     usb_free_urb urb ;;
     return_ retval) ;;
  ep <- load bulk_out_endpointAddr ;;
  let urb := option_map (fun u => mk_urb (transfer_dma u) count ep) urb in
  retval <- match urb with
            | Some u => usb_submit_bulk_urb submit u
            | None => fun w => Oops w
            end ;;
  when (negb (retval =? 0))
    (dev_err retval ;;
     dma <- deref urb transfer_dma ;;
     usb_free_coherent count buf dma ;;
     usb_free_urb urb ;;
     return_ retval) ;;
  pending <- load pending_data ;;
  store (set_pending_data (size_t (pending + count))) ;;
  usb_free_urb urb ;;
  return_ (ssize_t count).

(** [write_bulk_callback]; [status] is [urb->status]. *)
Definition write_bulk_callback (u : urb) (status : Z) : M unit unit :=
  when (negb (status =? 0) &&
        negb ((status =? - ENOENT) || (status =? - ECONNRESET) || (status =? - ESHUTDOWN)))
    (dev_err status) ;;
  usb_free_coherent (transfer_buffer_length u) (Some 0) (transfer_dma u).

(** [get_switches] *)
Definition get_switches : M (Z * string) (Z * string) :=
  sw <- load switches ;;
  return_ (sprintf (switches_format sw)).

(** [get_bargraph]; [ctl] is what [usb_control_msg] returns, [buf] the
    content of the page before the call. *)
Definition get_bargraph (ctl : Z) (buf : string) : M (Z * string) (Z * string) :=
  susp <- load suspended ;;
  when (negb (susp =? 0)) (return_ (sprintf "S ")) ;;
  store (set_leds 0) ;;
  retval <- usb_control_msg ctl READ_LEDS (Z.lor USB_DIR_IN USB_TYPE_VENDOR)
              buf_leds 1 USB_CTRL_GET_TIMEOUT ;;
  l <- load leds ;;
  let '(retval, buf) := sprintf (bargraph_format l) in
  return_ (retval, buf).

(** The parsing both set operations start with: [value] is an
    [unsigned int]. *)
Definition parse_value (buf : string) : Z :=
  let '(n, consumed) := simple_strtoul buf 10 in
  let value := u32 (Z.land n 0xFF) in
  if consumed =? 0 then 0 else value.

(** [set_bargraph] *)
Definition set_bargraph (ctl : Z) (buf : string) (count : Z) : M Z Z :=
  store (set_leds 0) ;;
  let value := parse_value buf in
  (if value >? 255 then store (set_leds 0)
   else l <- load leds ;; store (set_leds (bargraph_table value l))) ;;
  retval <- usb_control_msg ctl SET_LEDS (Z.lor USB_DIR_OUT USB_TYPE_VENDOR)
              buf_leds 1 USB_CTRL_GET_TIMEOUT ;;
  when (retval <? 0) (dev_err retval) ;;
  return_ (ssize_t count).

(** [get_7segment] *)
Definition get_7segment (ctl : Z) (buf : string) : M (Z * string) (Z * string) :=
  susp <- load suspended ;;
  when (negb (susp =? 0)) (return_ (sprintf "S ")) ;;
  store (set_segments 0) ;;
  retval <- usb_control_msg ctl READ_7SEG (Z.lor USB_DIR_IN USB_TYPE_VENDOR)
              buf_segments 1 USB_CTRL_GET_TIMEOUT ;;
  when (retval <? 0) (dev_err retval ;; return_ (retval, buf)) ;;
  sg <- load segments ;;
  let '(retval, buf) := sprintf (segment_format sg) in
  return_ (retval, buf).

(** [set_7segment] *)
Definition set_7segment (ctl : Z) (buf : string) (count : Z) : M Z Z :=
  store (set_segments 0) ;;
  let value := parse_value buf in
  (if value >? 255 then store (set_segments 0)
   else sg <- load segments ;; store (set_segments (segment_table value sg))) ;;
  retval <- usb_control_msg ctl SET_7SEG (Z.lor USB_DIR_OUT USB_TYPE_VENDOR)
              buf_segments 1 USB_CTRL_GET_TIMEOUT ;;
  when (retval <? 0) (dev_err retval) ;;
  return_ (ssize_t count).

End Driver.
Import Driver.

(* ================================================================== *)
(** ** The driver in its system *)

(** The world [osrfx2_probe] leaves behind when it returns 0: the context
    is zeroed, the reference count and the two pipe counters are 1, the
    three endpoints are found and the interrupt URB is submitted. *)
Definition attached (int_ep bulk_in_ep bulk_out_ep in_size out_size : Z)
    (leds0 segments0 : Z) : world :=
  mk_world
    (mk_osrfx2 true [] 0 in_size out_size int_ep bulk_in_ep bulk_out_ep
       1 0 0 0 1 1 0 0)
    leds0 segments0 true [] [] [k_usb_submit_urb int_ep 1].

(** The OSR USB-FX2 board at high speed: endpoints 1 (interrupt in),
    6 (bulk out) and 8 (bulk in), 512-byte bulk packets. *)
Definition fx2_board (leds0 segments0 : Z) : world :=
  attached 0x81 0x88 0x06 512 512 leds0 segments0.

(** Completion of the interrupt URB by the USB core: the URB is no longer
    active, a successful transfer has stored its byte in the interrupt
    buffer, and the handler runs. *)
Definition complete_int_urb (status data resubmit : Z) : M unit unit :=
  (fun w => Next tt (with_int_urb_active false w)) ;;
  when (status =? 0) (store (set_int_in_buffer (u8 data))) ;;
  interrupt_handler resubmit status.

Definition writes (f_flags : Z) : bool :=
  let flags := Z.land f_flags O_ACCMODE in (flags =? O_WRONLY) || (flags =? O_RDWR).

Definition reads (f_flags : Z) : bool :=
  let flags := Z.land f_flags O_ACCMODE in (flags =? O_RDONLY) || (flags =? O_RDWR).

(** Sessions holding the write permit, and the read permit. *)
Definition writers (files : list Z) : Z := Z.of_nat (List.length (filter writes files)).
Definition readers (files : list Z) : Z := Z.of_nat (List.length (filter reads files)).

Fixpoint remove_file (f : Z) (files : list Z) : list Z :=
  match files with
  | [] => []
  | g :: rest => if g =? f then rest else g :: remove_file f rest
  end.

(** Everything that can happen to an attached device. *)
Inductive entry : Type :=
| e_open (found intfdata : bool) (halt_out halt_in f_flags : Z)
| e_release (f_flags : Z)
| e_read (bulk bytes_read not_copied count : Z)
| e_write (new_urb : option urb) (new_buf : option (Z * Z)) (not_copied submit count : Z)
| e_write_done (u : urb) (status : Z)
| e_interrupt (status data resubmit : Z)
| e_suspend (sem : Z)
| e_resume (sem submit : Z)
| e_get_switches
| e_get_bargraph (ctl : Z) (buf : string)
| e_set_bargraph (ctl : Z) (buf : string) (count : Z)
| e_get_7segment (ctl : Z) (buf : string)
| e_set_7segment (ctl : Z) (buf : string) (count : Z).

(** A file is released only while it is open, and the interrupt URB
    completes only while it is submitted. *)
Definition enabled (e : entry) (w : world) : bool :=
  match e with
  | e_release f_flags => existsb (Z.eqb f_flags) (open_files w)
  | e_interrupt _ _ _ => int_urb_active w
  | _ => true
  end.

Definition exec (e : entry) (w : world) : world :=
  match e with
  | e_open found intfdata halt_out halt_in f_flags =>
      match run (osrfx2_open found intfdata halt_out halt_in f_flags) w with
      | (Returned r, w') =>
          if r =? 0 then with_open_files (f_flags :: open_files w') w' else w'
      | (Crashed, w') => w'
      end
  | e_release f_flags =>
      let w' := snd (run (osrfx2_release true f_flags) w) in
      with_open_files (remove_file f_flags (open_files w')) w'
  | e_read bulk bytes_read not_copied count =>
      snd (run (osrfx2_read bulk bytes_read not_copied count) w)
  | e_write new_urb new_buf not_copied submit count =>
      snd (run (osrfx2_write new_urb new_buf not_copied submit count) w)
  | e_write_done u status => snd (run (write_bulk_callback u status) w)
  | e_interrupt status data resubmit =>
      snd (run (complete_int_urb status data resubmit) w)
  | e_suspend sem => snd (run (osrfx2_suspend sem) w)
  | e_resume sem submit => snd (run (osrfx2_resume sem submit) w)
  | e_get_switches => snd (run get_switches w)
  | e_get_bargraph ctl buf => snd (run (get_bargraph ctl buf) w)
  | e_set_bargraph ctl buf count => snd (run (set_bargraph ctl buf count) w)
  | e_get_7segment ctl buf => snd (run (get_7segment ctl buf) w)
  | e_set_7segment ctl buf count => snd (run (set_7segment ctl buf count) w)
  end.

Fixpoint exec_all (es : list entry) (w : world) : option world :=
  match es with
  | [] => Some w
  | e :: rest => if enabled e w then exec_all rest (exec e w) else None
  end.

Definition is_resume (e : entry) : bool :=
  match e with e_resume _ _ => true | _ => false end.

Inductive reachable : world -> Prop :=
| reach_attached int_ep bulk_in_ep bulk_out_ep in_size out_size leds0 segments0 :
    reachable (attached int_ep bulk_in_ep bulk_out_ep in_size out_size leds0 segments0)
| reach_exec w e :
    reachable w -> enabled e w = true -> reachable (exec e w).

(** The pipe counters mirror the open files. *)
Definition permits_ok (w : world) : Prop :=
  bulk_write_available (fx2dev w) = 1 - writers (open_files w)
  /\ bulk_read_available (fx2dev w) = 1 - readers (open_files w)
  /\ writers (open_files w) <= 1
  /\ readers (open_files w) <= 1.

(** Exhaustive checks over an initial segment of the naturals. *)
Fixpoint all_below (n : nat) (p : Z -> bool) : bool :=
  match n with
  | O => true
  | S k => p (Z.of_nat k) && all_below k p
  end.

Definition roundtrip_check (v : Z) : bool :=
  String.eqb (bargraph_format (bargraph_set_remap v)) (switches_format v)
  && (bargraph_get_remap (bargraph_set_remap v) =? v)
  && (bargraph_set_remap (bargraph_get_remap v) =? v)
  && (bargraph_set_remap v
      =? Z.lor (Z.land (Z.shiftr v 3) 0x1F) (Z.land (Z.shiftl v 5) 0xE0))
  && String.eqb (segment_format (segment_set_remap v)) (switches_format v)
  && (segment_get_remap (segment_set_remap v) =? v)
  && (segment_set_remap (segment_get_remap v) =? v).

(* ================================================================== *)
(** ** Relations between worlds, and proof automation *)

(** The interrupt URB, the cached switches, the pipe counters and the
    open files are the same in both worlds. *)
Definition same_listener (w w' : world) : Prop :=
  int_urb_active w' = int_urb_active w
  /\ switches (fx2dev w') = switches (fx2dev w).

Definition same_permits (w w' : world) : Prop :=
  bulk_write_available (fx2dev w') = bulk_write_available (fx2dev w)
  /\ bulk_read_available (fx2dev w') = bulk_read_available (fx2dev w)
  /\ open_files w' = open_files w.

Ltac unfold_driver :=
  unfold exec, run, complete_int_urb, osrfx2_open, osrfx2_release, osrfx2_read,
    osrfx2_write, write_bulk_callback, interrupt_handler, osrfx2_suspend,
    osrfx2_resume, get_switches, get_bargraph, set_bargraph, get_7segment,
    set_7segment, usb_kill_int_urb, usb_submit_int_urb, usb_submit_bulk_urb,
    usb_control_msg, usb_bulk_msg, usb_clear_halt, usb_free_coherent,
    usb_free_urb, dev_err, wake_up, atomic_dec_and_test, atomic_inc, kref_get,
    kref_put, nonseekable_open, board_accept, board_answer, call_void, deref,
    bind, when, load, store, log, ret, return_.

Ltac split_ifs :=
  repeat (cbn;
          match goal with
          | |- context [if ?b then _ else _] => destruct b eqn:?
          | |- context [match ?o with Some _ => _ | None => _ end] => destruct o eqn:?
          end).

Ltac crunch := unfold_driver; split_ifs; cbn; repeat split; try reflexivity.

Ltac eval_s32 :=
  repeat match goal with
         | |- context [s32 ?x] =>
             let v := eval vm_compute in (s32 x) in change (s32 x) with v; cbn
         | |- context [if ?b then _ else _] => destruct b; cbn
         end.

(** What [osrfx2_open] does to the two counters when each is 0 or 1. *)
Definition open_outcome (w : world) (f_flags : Z) (r : result Z) (w' : world) : Prop :=
  open_files w' = open_files w /\
  ((r = Returned (- ENODEV) /\ same_permits w w')
   \/ (r = Returned (- EBUSY) /\ same_permits w w'
       /\ ((writes f_flags = true /\ bulk_write_available (fx2dev w) = 0)
           \/ (reads f_flags = true /\ bulk_read_available (fx2dev w) = 0)))
   \/ (r = Returned 0
       /\ bulk_write_available (fx2dev w')
          = bulk_write_available (fx2dev w) - (if writes f_flags then 1 else 0)
       /\ bulk_read_available (fx2dev w')
          = bulk_read_available (fx2dev w) - (if reads f_flags then 1 else 0)
       /\ (writes f_flags = true -> bulk_write_available (fx2dev w) = 1)
       /\ (reads f_flags = true -> bulk_read_available (fx2dev w) = 1))).

(* ================================================================== *)
(** ** Attach and detach *)

Definition set_interface (b : bool) (d : osrfx2) : osrfx2 :=
  mk_osrfx2 b (FieldEventQueue d) (int_in_buffer d) (bulk_in_size d)
    (bulk_out_size d) (int_in_endpointAddr d) (bulk_in_endpointAddr d)
    (bulk_out_endpointAddr d) (kref d) (switches d) (segments d) (leds d)
    (bulk_write_available d) (bulk_read_available d) (pending_data d)
    (suspended d).

Definition set_bulk_in (addr size : Z) (d : osrfx2) : osrfx2 :=
  mk_osrfx2 (interface d) (FieldEventQueue d) (int_in_buffer d) size
    (bulk_out_size d) (int_in_endpointAddr d) addr
    (bulk_out_endpointAddr d) (kref d) (switches d) (segments d) (leds d)
    (bulk_write_available d) (bulk_read_available d) (pending_data d)
    (suspended d).

Definition set_bulk_out (addr size : Z) (d : osrfx2) : osrfx2 :=
  mk_osrfx2 (interface d) (FieldEventQueue d) (int_in_buffer d)
    (bulk_in_size d) size (int_in_endpointAddr d) (bulk_in_endpointAddr d)
    addr (kref d) (switches d) (segments d) (leds d)
    (bulk_write_available d) (bulk_read_available d) (pending_data d)
    (suspended d).

Definition set_int_in (addr : Z) (d : osrfx2) : osrfx2 :=
  mk_osrfx2 (interface d) (FieldEventQueue d) (int_in_buffer d)
    (bulk_in_size d) (bulk_out_size d) addr (bulk_in_endpointAddr d)
    (bulk_out_endpointAddr d) (kref d) (switches d) (segments d) (leds d)
    (bulk_write_available d) (bulk_read_available d) (pending_data d)
    (suspended d).

(** [struct usb_endpoint_descriptor], the fields the probe reads. *)
Record usb_endpoint_descriptor : Type := mk_endpoint {
  bEndpointAddress : Z;
  bmAttributes : Z;
  wMaxPacketSize : Z;
  bInterval : Z
}.

(** usb/ch9.h: transfer type in the low two bits of [bmAttributes]
    (2 bulk, 3 interrupt), direction in bit 7 of the address. *)
Definition usb_endpoint_is_bulk_in (e : usb_endpoint_descriptor) : bool :=
  (Z.land (bmAttributes e) 0x03 =? 2) && (Z.land (bEndpointAddress e) 0x80 =? 0x80).

Definition usb_endpoint_is_bulk_out (e : usb_endpoint_descriptor) : bool :=
  (Z.land (bmAttributes e) 0x03 =? 2) && (Z.land (bEndpointAddress e) 0x80 =? 0).

Definition usb_endpoint_is_int_in (e : usb_endpoint_descriptor) : bool :=
  (Z.land (bmAttributes e) 0x03 =? 3) && (Z.land (bEndpointAddress e) 0x80 =? 0x80).

(** One turn of the endpoint loop of [osrfx2_probe]: three independent
    tests, each recording address and packet size. *)
Definition record_endpoint (d : osrfx2) (e : usb_endpoint_descriptor) : osrfx2 :=
  let d := if usb_endpoint_is_bulk_in e
           then set_bulk_in (bEndpointAddress e) (wMaxPacketSize e) d else d in
  let d := if usb_endpoint_is_bulk_out e
           then set_bulk_out (bEndpointAddress e) (wMaxPacketSize e) d else d in
  let d := if usb_endpoint_is_int_in e
           then set_int_in (bEndpointAddress e) d else d in
  d.

Definition scan_endpoints (endpoints : list usb_endpoint_descriptor) (d : osrfx2) : osrfx2 :=
  fold_left record_endpoint endpoints d.

(** The context after the [memset] to 0 and [init_waitqueue_head]. *)
Definition zeroed : osrfx2 :=
  mk_osrfx2 false [] 0 0 0 0 0 0 0 0 0 0 0 0 0 0.

(** The board plugged in, before the driver has seen it. *)
Definition plugged (leds0 segments0 : Z) : world :=
  mk_world zeroed leds0 segments0 false [] [] [].

(** What the kernel answers during [osrfx2_probe]. *)
Record probe_env : Type := mk_probe_env {
  context_alloc : bool;         (* kmalloc of the context *)
  create_switches : Z;          (* the three device_create_file *)
  create_bargraph : Z;
  create_7segment : Z;
  endpoints : list usb_endpoint_descriptor;
  int_buffer_alloc : bool;      (* kmalloc of the interrupt buffer *)
  int_urb_alloc : bool;         (* usb_alloc_urb *)
  int_submit : Z;               (* usb_submit_urb *)
  bulk_in_alloc : bool;         (* kmalloc of the bulk buffers *)
  bulk_out_alloc : bool;
  register_dev : Z              (* usb_register_dev *)
}.

(** [osrfx2_probe].  The result is the value returned and whether the
    interface data still points at the context ([usb_set_intfdata]). *)
Definition osrfx2_probe (env : probe_env) : M (Z * bool) (Z * bool) :=
  when (negb (context_alloc env))
    (let retval := - ENOMEM in
     dev_err retval ;;
     return_ (retval, false)) ;;
  store (fun _ => zeroed) ;;
  store (set_kref 1) ;;
  store (set_interface true) ;;
  store (set_bulk_write_available 1) ;;
  store (set_bulk_read_available 1) ;;
  let intfdata := true in
  let retval := create_switches env in
  when (negb (retval =? 0)) (dev_err retval ;; kref_put ;; return_ (retval, intfdata)) ;;
  let retval := create_bargraph env in
  when (negb (retval =? 0)) (dev_err retval ;; kref_put ;; return_ (retval, intfdata)) ;;
  let retval := create_7segment env in
  when (negb (retval =? 0)) (dev_err retval ;; kref_put ;; return_ (retval, intfdata)) ;;
  store (scan_endpoints (endpoints env)) ;;
  int_ep <- load int_in_endpointAddr ;;
  in_ep <- load bulk_in_endpointAddr ;;
  out_ep <- load bulk_out_endpointAddr ;;
  when ((int_ep =? 0) || (in_ep =? 0) || (out_ep =? 0))
    (let retval := - ENODEV in
     dev_err retval ;; kref_put ;; return_ (retval, intfdata)) ;;
  when (negb (int_buffer_alloc env))
    (let retval := - ENOMEM in
     dev_err retval ;; kref_put ;; return_ (retval, intfdata)) ;;
  when (negb (int_urb_alloc env))
    (let retval := - ENOMEM in
     dev_err retval ;; kref_put ;; return_ (retval, intfdata)) ;;
  retval <- usb_submit_int_urb (int_submit env) ;;
  when (negb (retval =? 0)) (dev_err retval ;; kref_put ;; return_ (retval, intfdata)) ;;
  when (negb (bulk_in_alloc env))
    (let retval := - ENOMEM in
     dev_err retval ;; kref_put ;; return_ (retval, intfdata)) ;;
  when (negb (bulk_out_alloc env))
    (let retval := - ENOMEM in
     dev_err retval ;; kref_put ;; return_ (retval, intfdata)) ;;
  let retval := register_dev env in
  let intfdata := if negb (retval =? 0) then false else intfdata in
  return_ (0, intfdata).

(** [osrfx2_disconnect]: the interface pointer is cleared, the
    interrupt URB is killed and the probe's reference is dropped. *)
Definition osrfx2_disconnect : M unit unit :=
  store (set_interface false) ;;
  usb_kill_int_urb ;;
  kref_put.

(** How often [osrfx2_delete] has run. *)
Definition is_delete (k : kcall) : bool :=
  match k with k_osrfx2_delete => true | _ => false end.

Definition deletions (l : list kcall) : Z := Z.of_nat (List.length (filter is_delete l)).

(** The entry points together with the detach.  [osrfx2_disconnect]
    clears the interface data along with [fx2dev->interface], so an open
    finds interface data exactly while the device is attached; the device
    is detached once. *)
Inductive event : Type :=
| ev_entry (e : entry)
| ev_disconnect.

Definition allowed (ev : event) (w : world) : bool :=
  match ev with
  | ev_entry (e_open _ intfdata _ _ _) => Bool.eqb intfdata (interface (fx2dev w))
  | ev_entry e => enabled e w
  | ev_disconnect => interface (fx2dev w)
  end.

Definition happen (ev : event) (w : world) : world :=
  match ev with
  | ev_entry e => exec e w
  | ev_disconnect => snd (run osrfx2_disconnect w)
  end.

Inductive lifetime : world -> Prop :=
| life_attached int_ep bulk_in_ep bulk_out_ep in_size out_size leds0 segments0 :
    lifetime (attached int_ep bulk_in_ep bulk_out_ep in_size out_size leds0 segments0)
| life_event w ev :
    lifetime w -> allowed ev w = true -> lifetime (happen ev w).

(** The reference count mirrors the probe's reference and the open
    files, and the context has been deleted exactly when it is 0. *)
Definition references_ok (w : world) : Prop :=
  kref (fx2dev w)
  = (if interface (fx2dev w) then 1 else 0) + Z.of_nat (List.length (open_files w))
  /\ deletions (calls w) = (if kref (fx2dev w) =? 0 then 1 else 0).

(** The last endpoint of a list that passes a test. *)
Definition last_matching (test : usb_endpoint_descriptor -> bool)
    (l : list usb_endpoint_descriptor) : option usb_endpoint_descriptor :=
  find test (rev l).



Definition transfers (l : list kcall) : Z :=
  Z.of_nat (List.length (filter is_transfer l)).

(** A suspended device has no interrupt URB in flight. *)
Definition suspend_ok (w : world) : Prop :=
  suspended (fx2dev w) = 0
  \/ (suspended (fx2dev w) = 1 /\ int_urb_active w = false).

(* ================================================================== *)
(** ** Decimal input *)

(** The decimal digits a string starts with. *)
Fixpoint leading_digits (s : string) : list Z :=
  match s with
  | EmptyString => []
  | String c rest =>
      match digit_value c with
      | Some d => if d <? 10 then d :: leading_digits rest else []
      | None => []
      end
  end.

(** The number a list of decimal digits spells. *)
Definition digits_value (ds : list Z) : Z :=
  fold_left (fun n d => n * 10 + d) ds 0.

(* ================================================================== *)
(** ** The test application, [my_usb_app.c] *)

Module App.

Definition BUF_LEN : Z := 9.

(** [snprintf] with ["%d"] on a value that is not negative: its decimal
    digits, at most ten for an [int]. *)
Fixpoint decimal_digits (fuel : nat) (n : Z) (acc : string) : string :=
  match fuel with
  | O => acc
  | S k =>
      let acc := String (ascii_of_nat (Z.to_nat (48 + n mod 10))) acc in
      if n / 10 =? 0 then acc else decimal_digits k (n / 10) acc
  end.

Definition snprintf_d (value : Z) : string := decimal_digits 10 value EmptyString.

Definition strlen (s : string) : Z := Z.of_nat (String.length s).

(** [read] on a sysfs attribute: the kernel calls the show function on an
    empty page and hands back at most [size] of the characters it wrote,
    or -1 when it returned an error. *)
Definition sysfs_read {R} (show : string -> M (Z * string) (Z * string)) (size : Z)
  : M R (Z * string) :=
  fun w =>
    match run (show EmptyString) w with
    | (Returned (n, page), w') =>
        if n <? 0 then Next (-1, EmptyString) w'
        else Next (Z.min n size, substring 0 (Z.to_nat (Z.min n size)) page) w'
    | (Crashed, w') => Oops w'
    end.

(** [write] on a sysfs attribute: the kernel hands the bytes written and
    their number to the store function; the bytes here are the digits
    and the terminating NUL. *)
Definition sysfs_write {R} (store : string -> Z -> M Z Z) (text : string) (len : Z)
  : M R Z :=
  fun w =>
    match run (store (text ++ String zero EmptyString)%string len) w with
    | (Returned n, w') => Next (if n <? 0 then -1 else n) w'
    | (Crashed, w') => Oops w'
    end.

(** [strdup]; [heap] tells whether the allocation succeeds. *)
Definition strdup (heap : bool) (s : string) : option string :=
  if heap then Some s else None.

(** The three readers; [fd] is what [open] returns, [ctl] what the
    control transfer of the driver returns. *)
Definition get_switches_state (fd : Z) (heap : bool) : M (option string) (option string) :=
  when (fd =? -1) (return_ None) ;;
  r <- sysfs_read (fun _ => get_switches) BUF_LEN ;;
  let '(count, attrvalue) := r in
  when (count =? 8) (return_ (strdup heap attrvalue)) ;;
  return_ None.

Definition get_7segment_state (fd : Z) (heap : bool) (ctl : Z)
  : M (option string) (option string) :=
  when (fd =? -1) (return_ None) ;;
  r <- sysfs_read (get_7segment ctl) BUF_LEN ;;
  let '(count, attrvalue) := r in
  when (count =? 8) (return_ (strdup heap attrvalue)) ;;
  return_ None.

Definition get_bargraph_state (fd : Z) (heap : bool) (ctl : Z)
  : M (option string) (option string) :=
  when (fd =? -1) (return_ None) ;;
  r <- sysfs_read (get_bargraph ctl) BUF_LEN ;;
  let '(count, attrvalue) := r in
  when (count =? 8) (return_ (strdup heap attrvalue)) ;;
  return_ None.

(** The two writers; [value] is an [unsigned char]. *)
Definition set_7segment_state (fd : Z) (ctl : Z) (value : Z) : M Z Z :=
  let attrvalue := snprintf_d (u8 value) in
  let len := strlen attrvalue + 1 in
  when (fd =? -1) (return_ (-1)) ;;
  count <- sysfs_write (set_7segment ctl) attrvalue len ;;
  when (negb (count =? len)) (return_ (-1)) ;;
  return_ 0.

Definition set_bargraph_state (fd : Z) (ctl : Z) (value : Z) : M Z Z :=
  let attrvalue := snprintf_d (u8 value) in
  let len := strlen attrvalue + 1 in
  when (fd =? -1) (return_ (-1)) ;;
  count <- sysfs_write (set_bargraph ctl) attrvalue len ;;
  when (negb (count =? len)) (return_ (-1)) ;;
  return_ 0.

End App.
Import App.

(* ================================================================== *)
(** ** Proof automation for the probe and the reference count *)

Ltac count_deletions :=
  unfold deletions; rewrite ?filter_app, ?length_app; cbn; try lia.

Ltac unfold_probe :=
  unfold run, osrfx2_probe, usb_submit_int_urb, dev_err, kref_put,
    bind, when, load, store, log, ret, return_.

Ltac probe_done :=
  cbn; eexists; eexists; (split; [reflexivity|]);
  repeat match goal with
         | H : ?x <> 0 |- context [?x =? 0] =>
             rewrite (proj2 (Z.eqb_neq x 0) H)
         end;
  split; [count_deletions|reflexivity].

(* ================================================================== *)
(** ** The bit tables *)

Lemma all_below_sound (n : nat) (p : Z -> bool) :
  all_below n p = true -> forall v, 0 <= v < Z.of_nat n -> p v = true.
Proof.
  induction n as [|k IH]; intros Hall v Hv.
  - simpl in Hv. lia.
  - simpl in Hall. apply andb_true_iff in Hall as [Hk Hrest].
    destruct (Z.eq_dec v (Z.of_nat k)) as [->|Hne]; [exact Hk|].
    apply IH; [exact Hrest|lia].
Qed.

Lemma roundtrip_check_all : all_below 256 roundtrip_check = true.
Proof. vm_compute. reflexivity. Qed.

(** C1.  For every byte [v], the characters [get_bargraph] prints for the
    physical byte that [set_bargraph] computes from [v] are the binary
    digits of [v], most significant first, and they decode to [v]; the
    same holds for [set_7segment] and [get_7segment]; and each get table
    undoes the set table in the other order too, so the set tables are
    bijections on bytes with the get tables as inverses.  The eight [|=]
    of [set_bargraph] amount to [((v >> 3) & 0x1F) | ((v << 5) & 0xE0)]. *)
Theorem remap_roundtrip (v : Z) :
  0 <= v <= 255 ->
  (bargraph_format (bargraph_set_remap v) = switches_format v
   /\ bargraph_get_remap (bargraph_set_remap v) = v
   /\ bargraph_set_remap (bargraph_get_remap v) = v
   /\ bargraph_set_remap v
      = Z.lor (Z.land (Z.shiftr v 3) 0x1F) (Z.land (Z.shiftl v 5) 0xE0))
  /\
  (segment_format (segment_set_remap v) = switches_format v
   /\ segment_get_remap (segment_set_remap v) = v
   /\ segment_set_remap (segment_get_remap v) = v).
Proof.
  intros Hv.
  assert (Hc : roundtrip_check v = true).
  { apply (all_below_sound 256 _ roundtrip_check_all). simpl. lia. }
  unfold roundtrip_check in Hc.
  repeat (apply andb_true_iff in Hc as [Hc ?]).
  repeat match goal with
         | H : String.eqb _ _ = true |- _ => apply String.eqb_eq in H
         | H : (_ =? _) = true |- _ => apply Z.eqb_eq in H
         end.
  repeat split; assumption.
Qed.

Lemma remap_roundtrip_witness :
  0 <= 0xA5 <= 255 /\
  bargraph_format (bargraph_set_remap 0xA5) = "10100101"%string /\
  segment_format (segment_set_remap 0xA5) = "10100101"%string.
Proof.
  split; [lia|].
  destruct (remap_roundtrip 0xA5 ltac:(lia)) as [[Hb _] [Hs _]].
  split; [rewrite Hb|rewrite Hs]; reflexivity.
Defined.

(* ================================================================== *)
(** ** Arithmetic of the C types *)

Lemma size_t_small (x : Z) : is_size_t x -> size_t x = x.
Proof. unfold is_size_t, size_t. intros H. apply Z.mod_small. exact H. Qed.

Lemma size_t_sub_conv (p r : Z) : size_t (p - size_t r) = size_t (p - r).
Proof. unfold size_t. apply Zminus_mod_idemp_r. Qed.

Lemma ssize_t_small (x : Z) : 0 <= x < 2 ^ 63 -> ssize_t x = x.
Proof.
  intros H. unfold ssize_t.
  assert (Hs : size_t x = x).
  { apply size_t_small. unfold is_size_t, BITS_PER_LONG. lia. }
  rewrite Hs. unfold BITS_PER_LONG. simpl (64 - 1).
  destruct (Z.ltb_spec x (2 ^ 63)); lia.
Qed.

Lemma size_t_moves (p k : Z) :
  is_size_t p -> 0 < k < 2 ^ 64 -> size_t (p + k) <> p.
Proof.
  unfold is_size_t, size_t, BITS_PER_LONG. intros Hp Hk Heq.
  assert (Hm : (p + k) mod 2 ^ 64 = p mod 2 ^ 64).
  { rewrite Heq. symmetry. apply Z.mod_small. exact Hp. }
  assert (Hd : ((p + k) - p) mod 2 ^ 64 = 0).
  { rewrite Zminus_mod, Hm, Z.sub_diag. reflexivity. }
  replace (p + k - p) with k in Hd by lia.
  rewrite Z.mod_small in Hd; lia.
Qed.

(* ================================================================== *)
(** ** Bulk transfers *)

(** C5.  [osrfx2_write] with [count = 0] returns 0 and leaves the world as
    it was: no transfer is issued and [pending_data] is unchanged.  With
    [count > 0], when the URB and the buffer are allocated, the copy from
    user space succeeds and [usb_submit_urb] returns 0, it returns [count]
    at once, after one [usb_submit_urb] and nothing else on the bus, and
    [pending_data] has grown by [count] (in [size_t] arithmetic: by exactly
    [count] unless the sum leaves the range of [size_t]). *)
Theorem write_accepts (w : world) (u : urb) (addr dma count : Z) :
  0 < count < 2 ^ 63 ->
  (forall new_urb new_buf not_copied submit,
      run (osrfx2_write new_urb new_buf not_copied submit 0) w = (Returned 0, w))
  /\ fst (run (osrfx2_write (Some u) (Some (addr, dma)) 0 0 count) w) = Returned count
  /\ pending_data (fx2dev (snd (run (osrfx2_write (Some u) (Some (addr, dma)) 0 0 count) w)))
     = size_t (pending_data (fx2dev w) + count)
  /\ (is_size_t (pending_data (fx2dev w) + count) ->
      pending_data (fx2dev (snd (run (osrfx2_write (Some u) (Some (addr, dma)) 0 0 count) w)))
      = pending_data (fx2dev w) + count)
  /\ calls (snd (run (osrfx2_write (Some u) (Some (addr, dma)) 0 0 count) w))
     = calls w ++ [k_usb_submit_urb (bulk_out_endpointAddr (fx2dev w)) count; k_usb_free_urb].
Proof.
  intros Hc.
  split; [intros; reflexivity|].
  assert (Hz : (count =? 0) = false) by (apply Z.eqb_neq; lia).
  assert (Hr : ssize_t count = count) by (apply ssize_t_small; lia).
  unfold run, osrfx2_write, bind, when. rewrite Hz. cbn.
  rewrite Hr, <- app_assoc.
  repeat split.
  intros Hfit. apply size_t_small. exact Hfit.
Qed.

Lemma write_accepts_witness :
  pending_data (fx2dev (snd (run (osrfx2_write (Some (mk_urb 0 0 0)) (Some (4096, 4096)) 0 0 5)
                               (fx2_board 0 0)))) = 5.
Proof.
  destruct (write_accepts (fx2_board 0 0) (mk_urb 0 0 0) 4096 4096 5 ltac:(lia))
    as (_ & _ & H & _).
  rewrite H. reflexivity.
Defined.

(** C6.  [osrfx2_read] issues exactly one [usb_bulk_msg], on the bulk-in
    endpoint, for [min(bulk_in_size, count)] bytes with a timeout of
    10000 ms, whatever the outcome.  When the transfer returns 0 and
    [copy_to_user] copies everything, it returns [bytes_read] and
    [pending_data] has shrunk by [bytes_read] (in [size_t] arithmetic: by
    exactly [bytes_read] unless the difference leaves the range of
    [size_t]). *)
Theorem read_single_transfer (w : world) (bulk bytes_read not_copied count : Z) :
  calls (snd (run (osrfx2_read bulk bytes_read not_copied count) w))
  = calls w ++ [k_usb_bulk_msg (bulk_in_endpointAddr (fx2dev w))
                  (Z.min (bulk_in_size (fx2dev w)) count) 10000]
  /\ fst (run (osrfx2_read 0 bytes_read 0 count) w) = Returned bytes_read
  /\ pending_data (fx2dev (snd (run (osrfx2_read 0 bytes_read 0 count) w)))
     = size_t (pending_data (fx2dev w) - bytes_read)
  /\ (is_size_t (pending_data (fx2dev w) - bytes_read) ->
      pending_data (fx2dev (snd (run (osrfx2_read 0 bytes_read 0 count) w)))
      = pending_data (fx2dev w) - bytes_read).
Proof.
  split.
  { unfold run, osrfx2_read, bind, when. cbn.
    destruct (bulk =? 0); cbn; reflexivity. }
  unfold run, osrfx2_read, bind, when. cbn.
  rewrite size_t_sub_conv.
  repeat split.
  intros Hfit. apply size_t_small. exact Hfit.
Qed.

Lemma read_single_transfer_witness :
  pending_data (fx2dev (snd (run (osrfx2_read 0 5 0 64)
     (snd (run (osrfx2_write (Some (mk_urb 0 0 0)) (Some (4096, 4096)) 0 0 8)
             (fx2_board 0 0)))))) = 3.
Proof.
  destruct (read_single_transfer
              (snd (run (osrfx2_write (Some (mk_urb 0 0 0)) (Some (4096, 4096)) 0 0 8)
                      (fx2_board 0 0))) 0 5 0 64) as (_ & _ & _ & H).
  rewrite H; [reflexivity|].
  unfold is_size_t. vm_compute. split; [discriminate|reflexivity].
Defined.

(** C10.  When the bulk-in transfer returns 0 but [copy_to_user] does not
    copy everything, [osrfx2_read] returns [-EFAULT] and has still changed
    [pending_data]: [pending_data -= retval] runs with [retval = -14], so
    the counter has grown by 14 (in [size_t] arithmetic) and differs from
    its value before the call. *)
Theorem read_fault_mutates_pending (w : world) (bytes_read not_copied count : Z) :
  not_copied <> 0 ->
  fst (run (osrfx2_read 0 bytes_read not_copied count) w) = Returned (- EFAULT)
  /\ pending_data (fx2dev (snd (run (osrfx2_read 0 bytes_read not_copied count) w)))
     = size_t (pending_data (fx2dev w) + 14)
  /\ (is_size_t (pending_data (fx2dev w) + 14) ->
      pending_data (fx2dev (snd (run (osrfx2_read 0 bytes_read not_copied count) w)))
      = pending_data (fx2dev w) + 14)
  /\ (is_size_t (pending_data (fx2dev w)) ->
      pending_data (fx2dev (snd (run (osrfx2_read 0 bytes_read not_copied count) w)))
      <> pending_data (fx2dev w)).
Proof.
  intros Hn.
  assert (Hz : (not_copied =? 0) = false) by (apply Z.eqb_neq; exact Hn).
  unfold run, osrfx2_read, bind, when. cbn. rewrite Hz. cbn.
  rewrite size_t_sub_conv.
  replace (pending_data (fx2dev w) - -14) with (pending_data (fx2dev w) + 14) by lia.
  repeat split.
  - intros Hfit. apply size_t_small. exact Hfit.
  - intros Hp. apply size_t_moves; [exact Hp|lia].
Qed.

Lemma read_fault_mutates_pending_witness :
  fst (run (osrfx2_read 0 5 5 64) (fx2_board 0 0)) = Returned (-14)
  /\ pending_data (fx2dev (snd (run (osrfx2_read 0 5 5 64) (fx2_board 0 0)))) = 14.
Proof.
  destruct (read_fault_mutates_pending (fx2_board 0 0) 5 5 64 ltac:(lia))
    as (Hr & Hp & _).
  split; [exact Hr|rewrite Hp; reflexivity].
Defined.

(** C9.  When [usb_alloc_urb] returns NULL, the error branch of
    [osrfx2_write] reads [urb->transfer_dma] to build the arguments of
    [usb_free_coherent]: the call dereferences the NULL URB pointer there,
    before anything is freed and before the [return] of [-ENOMEM] is
    reached.  The branch taken when the buffer allocation fails is the
    same code on a URB that exists, and does return [-ENOMEM]. *)
Theorem write_urb_alloc_failure_derefs_null
    (w : world) (new_buf : option (Z * Z)) (not_copied submit count : Z) :
  count <> 0 ->
  run (osrfx2_write None new_buf not_copied submit count) w = (Crashed, w)
  /\ forall u, fst (run (osrfx2_write (Some u) None not_copied submit count) w)
               = Returned (- ENOMEM).
Proof.
  intros Hc.
  assert (Hz : (count =? 0) = false) by (apply Z.eqb_neq; exact Hc).
  unfold run, osrfx2_write, bind, when. rewrite Hz. cbn.
  split; [reflexivity|]. intros u. reflexivity.
Qed.

Lemma write_urb_alloc_failure_derefs_null_witness :
  run (osrfx2_write None (Some (4096, 4096)) 0 0 5) (fx2_board 0 0)
  = (Crashed, fx2_board 0 0).
Proof.
  exact (proj1 (write_urb_alloc_failure_derefs_null
                  (fx2_board 0 0) (Some (4096, 4096)) 0 0 5 ltac:(lia))).
Defined.

(* ================================================================== *)
(** ** Attribute reads and writes *)

Lemma parse_value_byte (buf : string) : 0 <= parse_value buf <= 255.
Proof.
  unfold parse_value. destruct (simple_strtoul buf 10) as [n consumed].
  destruct (consumed =? 0); [lia|].
  change 0xFF with (Z.ones 8). rewrite Z.land_ones by lia.
  change (Z.ones 8) with 255. unfold u32.
  assert (H : 0 <= n mod 2 ^ 8 < 2 ^ 8) by (apply Z.mod_pos_bound; lia).
  rewrite Z.mod_small; lia.
Qed.

(** The range check of both set operations never fires: what is stored is
    the table applied to the parsed value, which is already masked. *)
Lemma set_bargraph_stores (w : world) (ctl : Z) (buf : string) (count : Z) :
  leds (fx2dev (snd (run (set_bargraph ctl buf count) w)))
  = bargraph_set_remap (parse_value buf).
Proof.
  pose proof (parse_value_byte buf) as Hb.
  assert (Hg : (parse_value buf >? 255) = false).
  { destruct (Z.gtb_spec (parse_value buf) 255); [lia|reflexivity]. }
  unfold run, set_bargraph, usb_control_msg, bind, when. rewrite Hg. cbn.
  destruct (1 <=? ctl); cbn; destruct (ctl <? 0); reflexivity.
Qed.

Lemma set_7segment_stores (w : world) (ctl : Z) (buf : string) (count : Z) :
  segments (fx2dev (snd (run (set_7segment ctl buf count) w)))
  = segment_set_remap (parse_value buf).
Proof.
  pose proof (parse_value_byte buf) as Hb.
  assert (Hg : (parse_value buf >? 255) = false).
  { destruct (Z.gtb_spec (parse_value buf) 255); [lia|reflexivity]. }
  unfold run, set_7segment, usb_control_msg, bind, when. rewrite Hg. cbn.
  destruct (1 <=? ctl); cbn; destruct (ctl <? 0); reflexivity.
Qed.

(** A failed control read: [get_7segment] hands the status back,
    [get_bargraph] formats the byte it has just cleared. *)
Lemma get_7segment_failure (w : world) (ctl : Z) (buf : string) :
  suspended (fx2dev w) = 0 -> ctl < 0 ->
  fst (run (get_7segment ctl buf) w) = Returned (ctl, buf).
Proof.
  intros Hs Hc.
  assert (H1 : (1 <=? ctl) = false) by (apply Z.leb_gt; lia).
  assert (H0 : (ctl <? 0) = true) by (apply Z.ltb_lt; lia).
  unfold run, get_7segment, usb_control_msg, bind, when, load. rewrite Hs. cbn.
  rewrite H1. cbn. rewrite H0. reflexivity.
Qed.

Lemma get_bargraph_failure (w : world) (ctl : Z) (buf : string) :
  suspended (fx2dev w) = 0 -> ctl < 0 ->
  fst (run (get_bargraph ctl buf) w) = Returned (8, "00000000"%string).
Proof.
  intros Hs Hc.
  assert (H1 : (1 <=? ctl) = false) by (apply Z.leb_gt; lia).
  unfold run, get_bargraph, usb_control_msg, bind, when, load. rewrite Hs. cbn.
  rewrite H1. reflexivity.
Qed.

(** C2.  On the string ["257"] the parsed value is 1, not 0: the result of
    [simple_strtoul] is masked with [0xFF] before the range check, so the
    check never sees a value above 255.  [set_bargraph] then sends the
    physical byte 0x20 to the board and a following [get_bargraph] prints
    ["00000001"]; [set_7segment] sends 0x01 and [get_7segment] prints
    ["00000001"].  Only multiples of 256 end up as 0. *)
Theorem set_masks_out_of_range :
  parse_value "257" = 1
  /\ parse_value "256" = 0
  /\ (let w1 := snd (run (set_bargraph 1 "257" 4) (fx2_board 0 0)) in
      leds (fx2dev w1) = 0x20
      /\ board_leds w1 = 0x20
      /\ fst (run (get_bargraph 1 "") w1) = Returned (8, "00000001"%string))
  /\ (let w1 := snd (run (set_7segment 1 "257" 4) (fx2_board 0 0)) in
      segments (fx2dev w1) = 0x01
      /\ board_segments w1 = 0x01
      /\ fst (run (get_7segment 1 "") w1) = Returned (8, "00000001"%string)).
Proof. vm_compute. repeat split. Qed.

(** C3.  With the device not suspended and the control read failing with
    [-ETIMEDOUT], [get_7segment] returns [-ETIMEDOUT] and leaves the page
    alone, but [get_bargraph] does not look at the status: it returns 8
    and the page holds ["00000000"], the format of the cached byte it
    cleared before the transfer, although every LED of the board is lit. *)
Theorem get_bargraph_ignores_failure :
  suspended (fx2dev (fx2_board 0xFF 0xFF)) = 0
  /\ fst (run (get_7segment (- ETIMEDOUT) "") (fx2_board 0xFF 0xFF))
     = Returned (- ETIMEDOUT, ""%string)
  /\ fst (run (get_bargraph (- ETIMEDOUT) "") (fx2_board 0xFF 0xFF))
     = Returned (8, "00000000"%string)
  /\ leds (fx2dev (snd (run (get_bargraph (- ETIMEDOUT) "") (fx2_board 0xFF 0xFF)))) = 0
  /\ board_leds (snd (run (get_bargraph (- ETIMEDOUT) "") (fx2_board 0xFF 0xFF))) = 0xFF.
Proof. vm_compute. repeat split. Qed.

(** C8.  While [suspended] is non-zero, [get_bargraph] and [get_7segment]
    return the two characters ["S "] and leave the whole world as it was:
    no control transfer, no change to the cached bytes or to the board.
    After an [osrfx2_resume] that gets the semaphore, [suspended] is 0 and
    both reads issue their control transfer again. *)
Theorem suspended_reads_short_circuit (w : world) (ctl : Z) (buf : string) :
  suspended (fx2dev w) <> 0 ->
  run (get_bargraph ctl buf) w = (Returned (2, "S "%string), w)
  /\ run (get_7segment ctl buf) w = (Returned (2, "S "%string), w)
  /\ forall submit,
       let w1 := snd (run (osrfx2_resume 0 submit) w) in
       suspended (fx2dev w1) = 0
       /\ calls (snd (run (get_bargraph ctl buf) w1))
          = calls w1 ++ [k_usb_control_msg READ_LEDS 0xC0 1 5000]
       /\ calls (snd (run (get_7segment ctl buf) w1))
          = calls w1 ++ k_usb_control_msg READ_7SEG 0xC0 1 5000
                        :: (if ctl <? 0 then [k_dev_err ctl] else []).
Proof.
  intros Hs.
  assert (Hz : (suspended (fx2dev w) =? 0) = false) by (apply Z.eqb_neq; exact Hs).
  split; [|split].
  - unfold run, get_bargraph, bind, when, load. rewrite Hz. reflexivity.
  - unfold run, get_7segment, bind, when, load. rewrite Hz. reflexivity.
  - intros submit w1.
    assert (Hs1 : suspended (fx2dev w1) = 0).
    { unfold w1, run, osrfx2_resume, usb_submit_int_urb, bind, when. cbn.
      destruct (submit =? 0); cbn; [reflexivity|].
      destruct (submit =? -113); reflexivity. }
    split; [exact Hs1|]. clearbody w1. split.
    + unfold run, get_bargraph, usb_control_msg, bind, when, load.
      rewrite Hs1. cbn. destruct (1 <=? ctl); reflexivity.
    + unfold run, get_7segment, usb_control_msg, bind, when, load.
      rewrite Hs1. cbn.
      destruct (1 <=? ctl); cbn; destruct (ctl <? 0); cbn;
        rewrite <- ?app_assoc; reflexivity.
Qed.

Lemma suspended_reads_short_circuit_witness :
  let w := snd (run (osrfx2_suspend 0) (fx2_board 0xFF 0xFF)) in
  run (get_bargraph 1 "") w = (Returned (2, "S "%string), w).
Proof.
  intros w.
  refine (proj1 (suspended_reads_short_circuit w 1 "" _)).
  vm_compute. discriminate.
Defined.

(* ================================================================== *)
(** ** What each entry point leaves alone *)

Lemma write_frame (w : world) new_urb new_buf not_copied submit count :
  let w' := snd (run (osrfx2_write new_urb new_buf not_copied submit count) w) in
  same_listener w w' /\ same_permits w w'.
Proof.
  unfold same_listener, same_permits.
  destruct new_urb as [u|]; destruct new_buf as [[a dma]|]; crunch.
Qed.

Lemma read_frame (w : world) bulk bytes_read not_copied count :
  let w' := snd (run (osrfx2_read bulk bytes_read not_copied count) w) in
  same_listener w w' /\ same_permits w w'.
Proof. unfold same_listener, same_permits. crunch. Qed.

Lemma attribute_frame (w : world) (e : entry) :
  match e with
  | e_write_done _ _ | e_get_switches | e_get_bargraph _ _ | e_set_bargraph _ _ _
  | e_get_7segment _ _ | e_set_7segment _ _ _ => True
  | _ => False
  end ->
  same_listener w (exec e w) /\ same_permits w (exec e w).
Proof.
  unfold same_listener, same_permits.
  destruct e; intros H; try contradiction; crunch.
Qed.

Lemma open_listener (w : world) found intfdata halt_out halt_in f_flags :
  same_listener w (exec (e_open found intfdata halt_out halt_in f_flags) w).
Proof. unfold same_listener. crunch. Qed.

Lemma release_listener (w : world) f_flags :
  same_listener w (exec (e_release f_flags) w).
Proof. unfold same_listener. crunch. Qed.

Lemma power_permits (w : world) (e : entry) :
  match e with
  | e_suspend _ | e_resume _ _ | e_interrupt _ _ _ => True
  | _ => False
  end ->
  same_permits w (exec e w).
Proof.
  unfold same_permits.
  destruct e; intros H; try contradiction; crunch.
Qed.

Lemma suspend_dormant (w : world) (sem : Z) :
  int_urb_active w = false -> same_listener w (exec (e_suspend sem) w).
Proof.
  intros Hd. unfold same_listener. unfold_driver. rewrite Hd. split_ifs.
  all: cbn; split; try reflexivity; try assumption.
Qed.

(** A dormant listener stays dormant, and the cached switches stay as
    they are, through every entry other than a resume. *)
Lemma dormant_step (w : world) (e : entry) :
  int_urb_active w = false -> is_resume e = false -> enabled e w = true ->
  same_listener w (exec e w).
Proof.
  intros Hd Hr He.
  destruct e; try discriminate Hr.
  - apply open_listener.
  - apply release_listener.
  - apply read_frame.
  - apply write_frame.
  - apply attribute_frame; exact I.
  - simpl in He. congruence.
  - apply suspend_dormant; exact Hd.
  - apply attribute_frame; exact I.
  - apply attribute_frame; exact I.
  - apply attribute_frame; exact I.
  - apply attribute_frame; exact I.
  - apply attribute_frame; exact I.
Qed.

Lemma dormant_run (es : list entry) :
  forall w w',
    int_urb_active w = false ->
    forallb (fun e => negb (is_resume e)) es = true ->
    exec_all es w = Some w' ->
    int_urb_active w' = false /\ switches (fx2dev w') = switches (fx2dev w).
Proof.
  induction es as [|e rest IH]; intros w w' Hd Hnr Hrun.
  - simpl in Hrun. inversion Hrun; subst. split; [exact Hd|reflexivity].
  - simpl in Hnr. apply andb_true_iff in Hnr as [He Hrest].
    apply negb_true_iff in He.
    simpl in Hrun. destruct (enabled e w) eqn:Hen; [|discriminate].
    destruct (dormant_step w e Hd He Hen) as [Ha Hs].
    destruct (IH (exec e w) w') as [Ha' Hs']; try assumption.
    + rewrite Ha. exact Hd.
    + split; [exact Ha'|]. rewrite Hs'. exact Hs.
Qed.

(* ================================================================== *)
(** ** The interrupt listener *)

(** C7.  When the interrupt URB completes with status 0, the handler
    stores the byte in [switches], then wakes the wait queue, then
    resubmits the URB: every task woken finds the switches attribute
    showing the new byte, [wake_up] precedes [usb_submit_urb] in the log,
    and the listener is armed again when that submission is accepted.
    When it completes with another status, the handler only logs: nothing
    is resubmitted, [switches] is unchanged and the listener is left
    dormant; it stays dormant, with [switches] frozen, through every run of
    entry points that contains no resume, and a resume whose submission is
    accepted arms it again. *)
Theorem interrupt_delivery_order (w : world) (status data resubmit : Z) :
  status <> 0 ->
  let ok := snd (run (complete_int_urb 0 data resubmit) w) in
  let ko := snd (run (complete_int_urb status data resubmit) w) in
  (switches (fx2dev ok) = u8 data
   /\ awake ok = awake w ++ map (fun t => (t, switches_format (u8 data)))
                              (FieldEventQueue (fx2dev w))
   /\ FieldEventQueue (fx2dev ok) = []
   /\ calls ok = calls w ++ [k_wake_up; k_usb_submit_urb (int_in_endpointAddr (fx2dev w)) 1]
                    ++ (if resubmit =? 0 then [] else [k_dev_err resubmit])
   /\ int_urb_active ok = (resubmit =? 0))
  /\ (calls ko = calls w ++ [k_dev_err status]
      /\ int_urb_active ko = false
      /\ switches (fx2dev ko) = switches (fx2dev w)
      /\ awake ko = awake w)
  /\ (forall es w',
         forallb (fun e => negb (is_resume e)) es = true ->
         exec_all es ko = Some w' ->
         int_urb_active w' = false /\ switches (fx2dev w') = switches (fx2dev ko))
  /\ int_urb_active (exec (e_resume 0 0) ko) = true.
Proof.
  intros Hst ok ko.
  assert (Hz : (status =? 0) = false) by (apply Z.eqb_neq; exact Hst).
  assert (Hko : int_urb_active ko = false).
  { unfold ko. unfold_driver. rewrite Hz. reflexivity. }
  split; [|split; [|split]].
  - unfold ok. unfold_driver. cbn.
    change (Z.land (Z.land data 255) 255) with (u8 (u8 data)).
    assert (Hu : u8 (u8 data) = u8 data).
    { unfold u8. rewrite <- Z.land_assoc. reflexivity. }
    rewrite Hu.
    destruct (resubmit =? 0); cbn; rewrite <- ?app_assoc; repeat split.
  - split; [|split; [exact Hko|split]];
      unfold ko; unfold_driver; rewrite Hz; reflexivity.
  - intros es w' Hnr Hrun. exact (dormant_run es ko w' Hko Hnr Hrun).
  - clearbody ko. unfold_driver. reflexivity.
Qed.

Lemma interrupt_delivery_order_witness :
  switches (fx2dev (snd (run (complete_int_urb 0 0x5A 0) (fx2_board 0 0)))) = 0x5A
  /\ int_urb_active (snd (run (complete_int_urb (-71) 0x5A 0) (fx2_board 0 0))) = false.
Proof.
  destruct (interrupt_delivery_order (fx2_board 0 0) (-71) 0x5A 0 ltac:(lia))
    as ((Hs & _) & (_ & Hd & _) & _).
  split; [rewrite Hs; reflexivity|exact Hd].
Defined.

(* ================================================================== *)
(** ** The access arbiter *)

Lemma writers_cons (f : Z) (files : list Z) :
  writers (f :: files) = (if writes f then 1 else 0) + writers files.
Proof.
  unfold writers. simpl filter. destruct (writes f); [|lia].
  simpl List.length. lia.
Qed.

Lemma readers_cons (f : Z) (files : list Z) :
  readers (f :: files) = (if reads f then 1 else 0) + readers files.
Proof.
  unfold readers. simpl filter. destruct (reads f); [|lia].
  simpl List.length. lia.
Qed.

Lemma writers_nonneg (files : list Z) : 0 <= writers files.
Proof. unfold writers. lia. Qed.

Lemma readers_nonneg (files : list Z) : 0 <= readers files.
Proof. unfold readers. lia. Qed.

Lemma writers_remove (f : Z) (files : list Z) :
  existsb (Z.eqb f) files = true ->
  writers (remove_file f files) = writers files - (if writes f then 1 else 0).
Proof.
  induction files as [|g rest IH]; intros Hin; [discriminate|].
  simpl in Hin. simpl remove_file. rewrite writers_cons.
  destruct (Z.eqb_spec g f) as [->|Hne].
  - lia.
  - destruct (Z.eqb_spec f g) as [->|_]; [contradiction|].
    simpl in Hin. rewrite writers_cons, (IH Hin). lia.
Qed.

Lemma readers_remove (f : Z) (files : list Z) :
  existsb (Z.eqb f) files = true ->
  readers (remove_file f files) = readers files - (if reads f then 1 else 0).
Proof.
  induction files as [|g rest IH]; intros Hin; [discriminate|].
  simpl in Hin. simpl remove_file. rewrite readers_cons.
  destruct (Z.eqb_spec g f) as [->|Hne].
  - lia.
  - destruct (Z.eqb_spec f g) as [->|_]; [contradiction|].
    simpl in Hin. rewrite readers_cons, (IH Hin). lia.
Qed.

Lemma writers_member (f : Z) (files : list Z) :
  existsb (Z.eqb f) files = true -> writes f = true -> 1 <= writers files.
Proof.
  induction files as [|g rest IH]; intros Hin Hw; [discriminate|].
  simpl in Hin. rewrite writers_cons.
  pose proof (writers_nonneg rest).
  destruct (Z.eqb_spec f g) as [<-|_].
  - rewrite Hw. lia.
  - simpl in Hin. specialize (IH Hin Hw). destruct (writes g); lia.
Qed.

Lemma readers_member (f : Z) (files : list Z) :
  existsb (Z.eqb f) files = true -> reads f = true -> 1 <= readers files.
Proof.
  induction files as [|g rest IH]; intros Hin Hr; [discriminate|].
  simpl in Hin. rewrite readers_cons.
  pose proof (readers_nonneg rest).
  destruct (Z.eqb_spec f g) as [<-|_].
  - rewrite Hr. lia.
  - simpl in Hin. specialize (IH Hin Hr). destruct (reads g); lia.
Qed.

Lemma open_effect (w : world) (found intfdata : bool) (halt_out halt_in f_flags : Z) :
  bulk_write_available (fx2dev w) = 0 \/ bulk_write_available (fx2dev w) = 1 ->
  bulk_read_available (fx2dev w) = 0 \/ bulk_read_available (fx2dev w) = 1 ->
  open_outcome w f_flags
    (fst (run (osrfx2_open found intfdata halt_out halt_in f_flags) w))
    (snd (run (osrfx2_open found intfdata halt_out halt_in f_flags) w)).
Proof.
  intros Hw Hr.
  destruct w as [d bl bs ia aw ofs cl]. destruct d. cbn in Hw, Hr.
  unfold open_outcome, same_permits, writes, reads,
    O_ACCMODE, O_WRONLY, O_RDWR, O_RDONLY, ENODEV, EBUSY, EPIPE.
  unfold_driver.
  unfold O_ACCMODE, O_WRONLY, O_RDWR, O_RDONLY, ENODEV, EBUSY, EPIPE.
  remember (Z.land f_flags 3) as f eqn:Hf. clear Hf.
  destruct found, intfdata; cbn; try (split; [reflexivity|left; repeat split]).
  destruct (Z.eqb_spec f 1) as [->|N1]; [|destruct (Z.eqb_spec f 2) as [->|N2];
    [|destruct (Z.eqb_spec f 0) as [->|N0]]];
  destruct Hw as [-> | ->]; destruct Hr as [-> | ->]; cbn;
  repeat match goal with
         | |- context [s32 ?x] =>
             let v := eval vm_compute in (s32 x) in change (s32 x) with v; cbn
         | |- context [if ?b then _ else _] => destruct b; cbn
         end;
  (split; [reflexivity|]);
  first [ right; right; repeat split; (reflexivity || (intros; reflexivity) || (intros; discriminate))
        | right; left; repeat split; first [left; split; reflexivity | right; split; reflexivity] ].
Qed.

Lemma release_effect (w : world) (f_flags : Z) :
  let w' := exec (e_release f_flags) w in
  bulk_write_available (fx2dev w')
  = (if writes f_flags then s32 (bulk_write_available (fx2dev w) + 1)
     else bulk_write_available (fx2dev w))
  /\ bulk_read_available (fx2dev w')
     = (if reads f_flags then s32 (bulk_read_available (fx2dev w) + 1)
        else bulk_read_available (fx2dev w))
  /\ open_files w' = remove_file f_flags (open_files w).
Proof.
  unfold writes, reads. unfold_driver.
  destruct ((Z.land f_flags O_ACCMODE =? O_WRONLY) || (Z.land f_flags O_ACCMODE =? O_RDWR));
    destruct ((Z.land f_flags O_ACCMODE =? O_RDONLY) || (Z.land f_flags O_ACCMODE =? O_RDWR));
    cbn; destruct (kref (fx2dev w) - 1 =? 0); cbn; repeat split.
Qed.

Lemma permits_binary (w : world) :
  permits_ok w ->
  (bulk_write_available (fx2dev w) = 0 \/ bulk_write_available (fx2dev w) = 1)
  /\ (bulk_read_available (fx2dev w) = 0 \/ bulk_read_available (fx2dev w) = 1).
Proof.
  intros (Hw & Hr & Hw1 & Hr1).
  pose proof (writers_nonneg (open_files w)).
  pose proof (readers_nonneg (open_files w)).
  lia.
Qed.

Lemma permits_same (w w' : world) :
  same_permits w w' -> permits_ok w -> permits_ok w'.
Proof.
  unfold same_permits, permits_ok. intros (Hw & Hr & Hf) H.
  rewrite Hw, Hr, Hf. exact H.
Qed.

Lemma permits_open (w : world) found intfdata halt_out halt_in f_flags :
  permits_ok w -> permits_ok (exec (e_open found intfdata halt_out halt_in f_flags) w).
Proof.
  intros Hok.
  destruct (permits_binary w Hok) as [Hbw Hbr].
  pose proof (open_effect w found intfdata halt_out halt_in f_flags Hbw Hbr) as He.
  unfold exec.
  destruct (run (osrfx2_open found intfdata halt_out halt_in f_flags) w) as [r w'].
  cbn [fst snd] in He. destruct He as [Hfiles He].
  destruct Hok as (Hw & Hr & Hw1 & Hr1).
  destruct He as [[-> Hs] | [[-> [Hs _]] | (-> & Hw' & Hr' & Hgw & Hgr)]].
  - cbn. apply (permits_same w w' Hs). repeat split; assumption.
  - cbn. apply (permits_same w w' Hs). repeat split; assumption.
  - change (0 =? 0) with true. cbv iota.
    unfold permits_ok, with_open_files. cbn [fx2dev open_files].
    rewrite writers_cons, readers_cons, Hfiles, Hw', Hr'.
    pose proof (writers_nonneg (open_files w)).
    pose proof (readers_nonneg (open_files w)).
    destruct (writes f_flags); destruct (reads f_flags);
      try specialize (Hgw eq_refl); try specialize (Hgr eq_refl); lia.
Qed.

Lemma permits_release (w : world) (f_flags : Z) :
  existsb (Z.eqb f_flags) (open_files w) = true ->
  permits_ok w -> permits_ok (exec (e_release f_flags) w).
Proof.
  intros Hin (Hw & Hr & Hw1 & Hr1).
  destruct (release_effect w f_flags) as (Hw' & Hr' & Hf').
  unfold permits_ok. rewrite Hw', Hr', Hf'.
  rewrite (writers_remove _ _ Hin), (readers_remove _ _ Hin).
  pose proof (writers_nonneg (open_files w)).
  pose proof (readers_nonneg (open_files w)).
  pose proof (writers_member f_flags (open_files w) Hin) as Mw.
  pose proof (readers_member f_flags (open_files w) Hin) as Mr.
  destruct (writes f_flags); destruct (reads f_flags);
    try specialize (Mw eq_refl); try specialize (Mr eq_refl);
    try (assert (Ew : bulk_write_available (fx2dev w) = 0) by lia; rewrite Ew);
    try (assert (Er : bulk_read_available (fx2dev w) = 0) by lia; rewrite Er);
    change (s32 (0 + 1)) with 1; lia.
Qed.

Lemma permits_step (w : world) (e : entry) :
  enabled e w = true -> permits_ok w -> permits_ok (exec e w).
Proof.
  intros He Hok. destruct e.
  - apply permits_open; exact Hok.
  - apply permits_release; [exact He|exact Hok].
  - apply (permits_same w); [apply read_frame|exact Hok].
  - apply (permits_same w); [apply write_frame|exact Hok].
  - apply (permits_same w); [apply attribute_frame; exact I|exact Hok].
  - apply (permits_same w); [apply power_permits; exact I|exact Hok].
  - apply (permits_same w); [apply power_permits; exact I|exact Hok].
  - apply (permits_same w); [apply power_permits; exact I|exact Hok].
  - apply (permits_same w); [apply attribute_frame; exact I|exact Hok].
  - apply (permits_same w); [apply attribute_frame; exact I|exact Hok].
  - apply (permits_same w); [apply attribute_frame; exact I|exact Hok].
  - apply (permits_same w); [apply attribute_frame; exact I|exact Hok].
  - apply (permits_same w); [apply attribute_frame; exact I|exact Hok].
Qed.

Lemma reachable_permits_ok (w : world) : reachable w -> permits_ok w.
Proof.
  induction 1 as [? ? ? ? ? ? ?|w e Hr IH He].
  - unfold permits_ok. cbn. lia.
  - apply permits_step; assumption.
Qed.

Lemma open_write_held (w : world) (halt_out halt_in f_flags : Z) :
  bulk_write_available (fx2dev w) = 0 -> writes f_flags = true ->
  run (osrfx2_open true true halt_out halt_in f_flags) w = (Returned (- EBUSY), w).
Proof.
  intros Hw Hf. destruct w as [d bl bs ia aw ofs cl]. destruct d.
  cbn in Hw. subst. unfold writes in Hf.
  unfold_driver. cbn. rewrite Hf. reflexivity.
Qed.

Lemma open_wronly_free (w : world) (halt_out halt_in : Z) :
  bulk_write_available (fx2dev w) = 1 ->
  fst (run (osrfx2_open true true halt_out halt_in O_WRONLY) w) = Returned 0
  /\ bulk_write_available
       (fx2dev (snd (run (osrfx2_open true true halt_out halt_in O_WRONLY) w))) = 0.
Proof.
  intros Hw. destruct w as [d bl bs ia aw ofs cl]. destruct d.
  cbn in Hw. subst. unfold_driver. cbn.
  destruct (negb (halt_out =? 0) && negb (halt_out =? -32)); cbn; split; reflexivity.
Qed.

Lemma open_rdwr_read_held (w : world) (halt_out halt_in : Z) :
  bulk_write_available (fx2dev w) = 1 -> bulk_read_available (fx2dev w) = 0 ->
  fst (run (osrfx2_open true true halt_out halt_in O_RDWR) w) = Returned (- EBUSY)
  /\ bulk_write_available
       (fx2dev (snd (run (osrfx2_open true true halt_out halt_in O_RDWR) w))) = 1
  /\ bulk_read_available
       (fx2dev (snd (run (osrfx2_open true true halt_out halt_in O_RDWR) w))) = 0.
Proof.
  intros Hw Hr. destruct w as [d bl bs ia aw ofs cl]. destruct d.
  cbn in Hw, Hr. subst. unfold_driver. cbn.
  destruct (negb (halt_out =? 0) && negb (halt_out =? -32)); cbn;
    repeat split; reflexivity.
Qed.

(** C4.  In every world reachable from a successful probe, at most one
    open file holds the write permit and at most one holds the read
    permit.  An [osrfx2_open] that returns [-EBUSY] leaves both counters
    as they were.  While a file holds the write permit, an open that needs
    it (O_WRONLY or O_RDWR) returns [-EBUSY] and changes nothing at all,
    the read permit included; once that file is released, an open with
    O_WRONLY returns 0.  When the write permit is free and the read permit
    is held, an open with O_RDWR returns [-EBUSY] and the write permit it
    had taken is free again. *)
Theorem arbiter_exclusive (w : world) :
  reachable w ->
  (writers (open_files w) <= 1 /\ readers (open_files w) <= 1)
  /\ (forall found intfdata halt_out halt_in f_flags w',
         run (osrfx2_open found intfdata halt_out halt_in f_flags) w
         = (Returned (- EBUSY), w') ->
         bulk_write_available (fx2dev w') = bulk_write_available (fx2dev w)
         /\ bulk_read_available (fx2dev w') = bulk_read_available (fx2dev w))
  /\ (writers (open_files w) = 1 ->
      forall halt_out halt_in f_flags,
        writes f_flags = true ->
        run (osrfx2_open true true halt_out halt_in f_flags) w
        = (Returned (- EBUSY), w))
  /\ (forall holder halt_out halt_in,
         existsb (Z.eqb holder) (open_files w) = true ->
         writes holder = true ->
         fst (run (osrfx2_open true true halt_out halt_in O_WRONLY)
                (exec (e_release holder) w)) = Returned 0)
  /\ (writers (open_files w) = 0 -> readers (open_files w) = 1 ->
      forall halt_out halt_in,
        fst (run (osrfx2_open true true halt_out halt_in O_RDWR) w)
        = Returned (- EBUSY)
        /\ bulk_write_available
             (fx2dev (snd (run (osrfx2_open true true halt_out halt_in O_RDWR) w))) = 1).
Proof.
  intros Hreach.
  pose proof (reachable_permits_ok w Hreach) as Hok.
  destruct (permits_binary w Hok) as [Hbw Hbr].
  destruct Hok as (Hw & Hr & Hw1 & Hr1).
  split; [split; assumption|].
  split; [|split; [|split]].
  - intros found intfdata halt_out halt_in f_flags w' Hrun.
    pose proof (open_effect w found intfdata halt_out halt_in f_flags Hbw Hbr) as He.
    rewrite Hrun in He. cbn [fst snd] in He.
    destruct He as [_ [[Hv _] | [(_ & (Hsw & Hsr & _) & _) | (Hv & _)]]].
    + discriminate Hv.
    + split; assumption.
    + discriminate Hv.
  - intros Hone halt_out halt_in f_flags Hf.
    apply open_write_held; [lia|exact Hf].
  - intros holder halt_out halt_in Hin Hf.
    pose proof (writers_member holder (open_files w) Hin Hf) as Hm.
    destruct (release_effect w holder) as (Hw' & _).
    rewrite Hf in Hw'.
    assert (Ew : bulk_write_available (fx2dev w) = 0) by lia.
    rewrite Ew in Hw'. change (s32 (0 + 1)) with 1 in Hw'.
    exact (proj1 (open_wronly_free _ halt_out halt_in Hw')).
  - intros Hnone Hone halt_out halt_in.
    destruct (open_rdwr_read_held w halt_out halt_in) as (Hv & Hw' & _); [lia|lia|].
    split; assumption.
Qed.

Lemma arbiter_exclusive_witness :
  let w := exec (e_open true true 0 0 O_WRONLY) (fx2_board 0 0) in
  run (osrfx2_open true true 0 0 O_WRONLY) w = (Returned (- EBUSY), w)
  /\ fst (run (osrfx2_open true true 0 0 O_WRONLY) (exec (e_release O_WRONLY) w))
     = Returned 0.
Proof.
  intros w.
  assert (Hreach : reachable w).
  { apply reach_exec; [apply reach_attached|reflexivity]. }
  destruct (arbiter_exclusive w Hreach) as (_ & _ & Hheld & Hfree & _).
  split.
  - apply Hheld; reflexivity.
  - apply Hfree; reflexivity.
Defined.

(* ================================================================== *)
(** ** Further properties: decimal input and the attributes *)

Lemma u8_mod (x : Z) : u8 x = x mod 256.
Proof. unfold u8. change 0xFF with (Z.ones 8). rewrite Z.land_ones by lia. reflexivity. Qed.

Lemma u8_range (x : Z) : 0 <= u8 x < 256.
Proof. rewrite u8_mod. apply Z.mod_pos_bound. lia. Qed.

Lemma u8_small (x : Z) : 0 <= x < 256 -> u8 x = x.
Proof. intros H. rewrite u8_mod. apply Z.mod_small. exact H. Qed.

Lemma size_t_step (a d : Z) : size_t (size_t a * 10 + d) = size_t (a * 10 + d).
Proof.
  unfold size_t.
  rewrite Z.add_mod by (unfold BITS_PER_LONG; lia).
  rewrite Z.mul_mod_idemp_l by (unfold BITS_PER_LONG; lia).
  rewrite <- Z.add_mod by (unfold BITS_PER_LONG; lia).
  reflexivity.
Qed.

Lemma strtoul_loop_digits (s : string) :
  forall a n,
    strtoul_loop 10 s (size_t a) n
    = (size_t (fold_left (fun m d => m * 10 + d) (leading_digits s) a),
       n + Z.of_nat (List.length (leading_digits s))).
Proof.
  induction s as [|c rest IH]; intros a n.
  - simpl. rewrite Z.add_0_r. reflexivity.
  - simpl. destruct (digit_value c) as [d|].
    + destruct (Z.ltb_spec d 10) as [Hlt|Hge].
      * assert (Hg : (d >=? 10) = false) by (rewrite Z.geb_leb; apply Z.leb_gt; lia).
        rewrite Hg, size_t_step, IH. simpl fold_left. simpl List.length.
        f_equal. lia.
      * assert (Hg : (d >=? 10) = true) by (rewrite Z.geb_leb; apply Z.leb_le; lia).
        rewrite Hg. simpl. rewrite Z.add_0_r. reflexivity.
    + simpl. rewrite Z.add_0_r. reflexivity.
Qed.

Lemma size_t_low_byte (x : Z) : size_t x mod 256 = x mod 256.
Proof.
  unfold size_t, BITS_PER_LONG.
  apply Z.mod_mod_divide. exists (2 ^ 56). reflexivity.
Qed.

(** X1.  The value both set operations work with is the number spelled by
    the decimal digits the text starts with, taken modulo 256; a text that
    starts with no digit counts as 0. *)
Theorem parse_value_decimal (buf : string) :
  parse_value buf = digits_value (leading_digits buf) mod 256.
Proof.
  unfold parse_value, simple_strtoul, digits_value.
  change 0 with (size_t 0) at 1. rewrite strtoul_loop_digits.
  destruct (leading_digits buf) as [|d ds] eqn:Hd.
  - reflexivity.
  - assert (Hc : (0 + Z.of_nat (List.length (d :: ds)) =? 0) = false).
    { apply Z.eqb_neq. simpl List.length. lia. }
    rewrite Hc. fold (u8 (size_t (fold_left (fun m d0 => m * 10 + d0) (d :: ds) 0))).
    rewrite u8_mod. unfold u32. rewrite size_t_low_byte.
    apply Z.mod_small.
    assert (H : 0 <= fold_left (fun m d0 => m * 10 + d0) (d :: ds) 0 mod 256 < 256)
      by (apply Z.mod_pos_bound; lia).
    lia.
Qed.

Lemma table_bytes :
  all_below 256 (fun v =>
    (u8 (bargraph_set_remap v) =? bargraph_set_remap v)
    && (u8 (segment_set_remap v) =? segment_set_remap v)
    && String.eqb (bargraph_format (bargraph_set_remap v)) (switches_format v)
    && String.eqb (segment_format (segment_set_remap v)) (switches_format v)
    && (bin_value (switches_format v) =? v)
    && (Z.of_nat (String.length (switches_format v)) =? 8)) = true.
Proof. vm_compute. reflexivity. Qed.

Lemma table_facts (v : Z) :
  0 <= v <= 255 ->
  u8 (bargraph_set_remap v) = bargraph_set_remap v
  /\ u8 (segment_set_remap v) = segment_set_remap v
  /\ bargraph_format (bargraph_set_remap v) = switches_format v
  /\ segment_format (segment_set_remap v) = switches_format v
  /\ bin_value (switches_format v) = v
  /\ Z.of_nat (String.length (switches_format v)) = 8.
Proof.
  intros Hv.
  pose proof (all_below_sound 256 _ table_bytes v ltac:(simpl; lia)) as Hc.
  cbv beta in Hc.
  repeat (apply andb_true_iff in Hc as [Hc ?]).
  repeat match goal with
         | H : String.eqb _ _ = true |- _ => apply String.eqb_eq in H
         | H : (_ =? _) = true |- _ => apply Z.eqb_eq in H
         end.
  repeat split; assumption.
Qed.

(** X2.  Both set operations report [count] whatever the control transfer
    answers.  The cached byte is the table applied to the parsed value;
    the board takes that byte when the transfer moved it and keeps its
    register otherwise, and a negative status is only logged. *)
Theorem set_attribute_best_effort (w : world) (ctl : Z) (buf : string) (count : Z) :
  0 <= count < 2 ^ 63 ->
  let wb := snd (run (set_bargraph ctl buf count) w) in
  let ws := snd (run (set_7segment ctl buf count) w) in
  (fst (run (set_bargraph ctl buf count) w) = Returned count
   /\ leds (fx2dev wb) = bargraph_set_remap (parse_value buf)
   /\ board_leds wb = (if 1 <=? ctl then bargraph_set_remap (parse_value buf)
                       else board_leds w)
   /\ calls wb = calls w ++ k_usb_control_msg SET_LEDS 0x40 1 5000
                            :: (if ctl <? 0 then [k_dev_err ctl] else []))
  /\ (fst (run (set_7segment ctl buf count) w) = Returned count
      /\ segments (fx2dev ws) = segment_set_remap (parse_value buf)
      /\ board_segments ws = (if 1 <=? ctl then segment_set_remap (parse_value buf)
                              else board_segments w)
      /\ calls ws = calls w ++ k_usb_control_msg SET_7SEG 0x40 1 5000
                               :: (if ctl <? 0 then [k_dev_err ctl] else [])).
Proof.
  intros Hc wb ws.
  pose proof (parse_value_byte buf) as Hb.
  assert (Hg : (parse_value buf >? 255) = false).
  { destruct (Z.gtb_spec (parse_value buf) 255); [lia|reflexivity]. }
  assert (Hr : ssize_t count = count) by (apply ssize_t_small; exact Hc).
  split.
  - unfold wb, run, set_bargraph, usb_control_msg, bind, when. rewrite Hg. cbn.
    destruct (1 <=? ctl); cbn; destruct (ctl <? 0); cbn;
      rewrite Hr, <- ?app_assoc; repeat split.
  - unfold ws, run, set_7segment, usb_control_msg, bind, when. rewrite Hg. cbn.
    destruct (1 <=? ctl); cbn; destruct (ctl <? 0); cbn;
      rewrite Hr, <- ?app_assoc; repeat split.
Qed.

Lemma set_attribute_best_effort_witness :
  fst (run (set_bargraph (-110) "170" 4) (fx2_board 0xFF 0)) = Returned 4
  /\ board_leds (snd (run (set_bargraph (-110) "170" 4) (fx2_board 0xFF 0))) = 0xFF.
Proof.
  destruct (set_attribute_best_effort (fx2_board 0xFF 0) (-110) "170" 4 ltac:(lia))
    as ((Hr & _ & Hb & _) & _).
  split; [exact Hr|rewrite Hb; reflexivity].
Defined.

Lemma set_bargraph_moved (w : world) (ctl : Z) (buf : string) (count : Z) :
  1 <= ctl ->
  board_leds (snd (run (set_bargraph ctl buf count) w)) = bargraph_set_remap (parse_value buf)
  /\ suspended (fx2dev (snd (run (set_bargraph ctl buf count) w))) = suspended (fx2dev w).
Proof.
  intros Hc.
  pose proof (parse_value_byte buf) as Hb.
  assert (Hg : (parse_value buf >? 255) = false).
  { destruct (Z.gtb_spec (parse_value buf) 255); [lia|reflexivity]. }
  assert (H1 : (1 <=? ctl) = true) by (apply Z.leb_le; exact Hc).
  assert (H0 : (ctl <? 0) = false) by (apply Z.ltb_ge; lia).
  unfold run, set_bargraph, usb_control_msg, bind, when. rewrite Hg. cbn.
  rewrite H1. cbn. rewrite H0. split; reflexivity.
Qed.

Lemma set_7segment_moved (w : world) (ctl : Z) (buf : string) (count : Z) :
  1 <= ctl ->
  board_segments (snd (run (set_7segment ctl buf count) w)) = segment_set_remap (parse_value buf)
  /\ suspended (fx2dev (snd (run (set_7segment ctl buf count) w))) = suspended (fx2dev w).
Proof.
  intros Hc.
  pose proof (parse_value_byte buf) as Hb.
  assert (Hg : (parse_value buf >? 255) = false).
  { destruct (Z.gtb_spec (parse_value buf) 255); [lia|reflexivity]. }
  assert (H1 : (1 <=? ctl) = true) by (apply Z.leb_le; exact Hc).
  assert (H0 : (ctl <? 0) = false) by (apply Z.ltb_ge; lia).
  unfold run, set_7segment, usb_control_msg, bind, when. rewrite Hg. cbn.
  rewrite H1. cbn. rewrite H0. split; reflexivity.
Qed.

Lemma get_bargraph_moved (w : world) (ctl : Z) (page : string) :
  suspended (fx2dev w) = 0 -> 1 <= ctl ->
  fst (run (get_bargraph ctl page) w)
  = Returned (sprintf (bargraph_format (u8 (board_leds w))))
  /\ leds (fx2dev (snd (run (get_bargraph ctl page) w))) = u8 (board_leds w).
Proof.
  intros Hs Hc.
  assert (H1 : (1 <=? ctl) = true) by (apply Z.leb_le; exact Hc).
  unfold run, get_bargraph, usb_control_msg, bind, when, load. rewrite Hs.
  cbn -[bargraph_format sprintf u8]. rewrite H1.
  cbn -[bargraph_format sprintf u8].
  destruct (sprintf (bargraph_format (u8 (board_leds w)))). split; reflexivity.
Qed.

Lemma get_7segment_moved (w : world) (ctl : Z) (page : string) :
  suspended (fx2dev w) = 0 -> 1 <= ctl ->
  fst (run (get_7segment ctl page) w)
  = Returned (sprintf (segment_format (u8 (board_segments w))))
  /\ segments (fx2dev (snd (run (get_7segment ctl page) w))) = u8 (board_segments w).
Proof.
  intros Hs Hc.
  assert (H1 : (1 <=? ctl) = true) by (apply Z.leb_le; exact Hc).
  assert (H0 : (ctl <? 0) = false) by (apply Z.ltb_ge; lia).
  unfold run, get_7segment, usb_control_msg, bind, when, load. rewrite Hs.
  cbn -[segment_format sprintf u8]. rewrite H1.
  cbn -[segment_format sprintf u8]. rewrite H0.
  cbn -[segment_format sprintf u8].
  destruct (sprintf (segment_format (u8 (board_segments w)))). split; reflexivity.
Qed.

Lemma sprintf_byte (v : Z) :
  0 <= v <= 255 -> sprintf (switches_format v) = (8, switches_format v).
Proof.
  intros Hv. unfold sprintf.
  destruct (table_facts v Hv) as (_ & _ & _ & _ & _ & Hl). rewrite Hl. reflexivity.
Qed.

(** X3.  On a device that is not suspended, when the control transfers
    move their byte, reading an attribute after writing it returns eight
    characters: the binary digits, most significant first, of the value
    that was parsed from the text written. *)
Theorem set_then_get_roundtrip (w : world) (c1 c2 : Z) (buf page : string) (count : Z) :
  suspended (fx2dev w) = 0 -> 1 <= c1 -> 1 <= c2 ->
  fst (run (get_bargraph c2 page) (snd (run (set_bargraph c1 buf count) w)))
  = Returned (8, switches_format (parse_value buf))
  /\ fst (run (get_7segment c2 page) (snd (run (set_7segment c1 buf count) w)))
     = Returned (8, switches_format (parse_value buf)).
Proof.
  intros Hs H1 H2.
  pose proof (parse_value_byte buf) as Hb.
  destruct (table_facts (parse_value buf) Hb) as (Hub & Hus & Hfb & Hfs & _).
  split.
  - destruct (set_bargraph_moved w c1 buf count H1) as [Hboard Hsusp].
    rewrite Hs in Hsusp.
    destruct (get_bargraph_moved _ c2 page Hsusp H2) as [Hget _].
    rewrite Hget, Hboard, Hub, Hfb, (sprintf_byte _ Hb). reflexivity.
  - destruct (set_7segment_moved w c1 buf count H1) as [Hboard Hsusp].
    rewrite Hs in Hsusp.
    destruct (get_7segment_moved _ c2 page Hsusp H2) as [Hget _].
    rewrite Hget, Hboard, Hus, Hfs, (sprintf_byte _ Hb). reflexivity.
Qed.

Lemma set_then_get_roundtrip_witness :
  fst (run (get_bargraph 1 "") (snd (run (set_bargraph 1 "129" 4) (fx2_board 0 0))))
  = Returned (8, "10000001"%string).
Proof.
  exact (proj1 (set_then_get_roundtrip (fx2_board 0 0) 1 1 "129" "" 4
                  eq_refl ltac:(lia) ltac:(lia))).
Defined.

(** X4.  [get_switches] changes nothing and always returns eight
    characters.  After the interrupt URB has completed with status 0 they
    are the binary digits, most significant first, of the low eight bits
    of the byte delivered. *)
Theorem get_switches_after_delivery (w : world) (data resubmit : Z) :
  let w1 := snd (run (complete_int_urb 0 data resubmit) w) in
  run get_switches w1 = (Returned (8, switches_format (data mod 256)), w1)
  /\ bin_value (switches_format (data mod 256)) = data mod 256.
Proof.
  intros w1.
  assert (Hsw : switches (fx2dev w1) = data mod 256).
  { unfold w1. unfold_driver. cbn -[u8].
    assert (Hu : u8 (u8 data) = u8 data) by (apply u8_small, u8_range).
    destruct (resubmit =? 0); cbn -[u8]; rewrite Hu; apply u8_mod. }
  assert (Hb : 0 <= data mod 256 <= 255).
  { pose proof (Z.mod_pos_bound data 256 ltac:(lia)). lia. }
  split.
  - unfold run, get_switches, bind, load, return_. rewrite Hsw, (sprintf_byte _ Hb).
    reflexivity.
  - apply table_facts. exact Hb.
Qed.

(* ================================================================== *)
(** ** Further properties: bulk transfers *)



(** X5.  When [usb_bulk_msg] does not return 0, [osrfx2_read] returns that
    status and leaves the device context as it was, [pending_data]
    included. *)
Theorem read_failure_untouched (w : world) (bulk bytes_read not_copied count : Z) :
  bulk <> 0 ->
  fst (run (osrfx2_read bulk bytes_read not_copied count) w) = Returned bulk
  /\ fx2dev (snd (run (osrfx2_read bulk bytes_read not_copied count) w)) = fx2dev w.
Proof.
  intros Hb.
  assert (Hz : (bulk =? 0) = false) by (apply Z.eqb_neq; exact Hb).
  unfold run, osrfx2_read, usb_bulk_msg, bind, when, load, log, ret, return_.
  cbn. rewrite Hz. cbn. destruct (fx2dev w). split; reflexivity.
Qed.

Lemma read_failure_untouched_witness :
  fst (run (osrfx2_read (- ETIMEDOUT) 0 0 64) (fx2_board 0 0)) = Returned (-110).
Proof.
  exact (proj1 (read_failure_untouched (fx2_board 0 0) (- ETIMEDOUT) 0 0 64 ltac:(discriminate))).
Defined.





Lemma size_t_add_sub (p n : Z) : is_size_t p -> size_t (size_t (p + n) - n) = p.
Proof.
  unfold is_size_t, size_t. intros Hp.
  rewrite Zminus_mod_idemp_l.
  replace (p + n - n) with p by lia.
  apply Z.mod_small. exact Hp.
Qed.

(** X8.  A write of [n] bytes that is accepted, followed by a read that
    delivers [n] bytes, leaves [pending_data] where it was. *)
Theorem write_then_read_balances (w : world) (u : urb) (addr dma n count : Z) :
  0 < n < 2 ^ 63 -> is_size_t (pending_data (fx2dev w)) ->
  pending_data
    (fx2dev (snd (run (osrfx2_read 0 n 0 count)
                    (snd (run (osrfx2_write (Some u) (Some (addr, dma)) 0 0 n) w)))))
  = pending_data (fx2dev w).
Proof.
  intros Hn Hp.
  assert (Hz : (n =? 0) = false) by (apply Z.eqb_neq; lia).
  unfold run, osrfx2_write, osrfx2_read, usb_submit_bulk_urb, usb_bulk_msg,
    usb_free_coherent, usb_free_urb, dev_err, deref, bind, when, load, store, log,
    ret, return_.
  rewrite Hz. cbn. rewrite size_t_sub_conv. apply size_t_add_sub. exact Hp.
Qed.

Lemma write_then_read_balances_witness :
  pending_data
    (fx2dev (snd (run (osrfx2_read 0 5 0 64)
                    (snd (run (osrfx2_write (Some (mk_urb 0 0 0)) (Some (4096, 4096)) 0 0 5)
                            (fx2_board 0 0)))))) = 0.
Proof.
  refine (write_then_read_balances (fx2_board 0 0) (mk_urb 0 0 0) 4096 4096 5 64
            ltac:(lia) _).
  unfold is_size_t. vm_compute. split; [discriminate|reflexivity].
Defined.

(* ================================================================== *)
(** ** Further properties: suspend and resume *)

(** X9.  A suspend or a resume that is interrupted while waiting for the
    semaphore returns [-ERESTARTSYS] and changes nothing. *)
Theorem power_transition_interrupted (w : world) (sem submit : Z) :
  sem <> 0 ->
  run (osrfx2_suspend sem) w = (Returned (- ERESTARTSYS), w)
  /\ run (osrfx2_resume sem submit) w = (Returned (- ERESTARTSYS), w).
Proof.
  intros Hs.
  assert (Hz : (sem =? 0) = false) by (apply Z.eqb_neq; exact Hs).
  unfold run, osrfx2_suspend, osrfx2_resume, bind, when, return_. rewrite Hz.
  split; reflexivity.
Qed.

Lemma power_transition_interrupted_witness :
  run (osrfx2_suspend (-4)) (fx2_board 0 0) = (Returned (-512), fx2_board 0 0).
Proof.
  assert (Hs : -4 <> 0) by discriminate.
  destruct (power_transition_interrupted (fx2_board 0 0) (-4) 0 Hs) as [H _].
  exact H.
Defined.

(** X10.  On an active device, a suspend marks the context suspended and
    stops the interrupt URB; the resume that follows returns 0 whatever
    the resubmission answers, puts the device context back exactly as it
    was before the suspend, and the listener is armed again exactly when
    the resubmission was accepted. *)
Theorem suspend_resume_roundtrip (w : world) (submit : Z) :
  suspended (fx2dev w) = 0 ->
  let w1 := snd (run (osrfx2_suspend 0) w) in
  let w2 := snd (run (osrfx2_resume 0 submit) w1) in
  fst (run (osrfx2_suspend 0) w) = Returned 0
  /\ suspended (fx2dev w1) = 1
  /\ int_urb_active w1 = false
  /\ fst (run (osrfx2_resume 0 submit) w1) = Returned 0
  /\ fx2dev w2 = fx2dev w
  /\ int_urb_active w2 = (submit =? 0).
Proof.
  intros Hs w1 w2. unfold w2, w1.
  destruct w as [d bl bs ia aw ofs cl]. destruct d. cbn in Hs. subst.
  unfold_driver. cbn.
  destruct ia; cbn; destruct (submit =? 0) eqn:Hsub; cbn;
    try (destruct (submit =? -113); cbn); repeat split; reflexivity.
Qed.

Lemma suspend_resume_roundtrip_witness :
  int_urb_active (snd (run (osrfx2_resume 0 0)
                         (snd (run (osrfx2_suspend 0) (fx2_board 0 0))))) = true.
Proof.
  destruct (suspend_resume_roundtrip (fx2_board 0 0) 0 eq_refl) as (_ & _ & _ & _ & _ & H).
  exact H.
Defined.

Lemma suspended_frame (w : world) (e : entry) :
  match e with
  | e_suspend _ | e_resume _ _ => True
  | _ => suspended (fx2dev (exec e w)) = suspended (fx2dev w)
  end.
Proof.
  destruct e; try exact I.
  - crunch.
  - crunch.
  - crunch.
  - destruct new_urb as [u|]; destruct new_buf as [[a dma]|]; crunch.
  - crunch.
  - crunch.
  - crunch.
  - crunch.
  - crunch.
  - crunch.
  - crunch.
Qed.

Lemma suspend_ok_frame (w w' : world) :
  suspended (fx2dev w') = suspended (fx2dev w) -> same_listener w w' ->
  suspend_ok w -> suspend_ok w'.
Proof.
  unfold suspend_ok, same_listener. intros Hs [Ha _] H. rewrite Hs, Ha. exact H.
Qed.

Lemma suspend_ok_step (w : world) (e : entry) :
  enabled e w = true -> suspend_ok w -> suspend_ok (exec e w).
Proof.
  intros He Hok.
  pose proof (suspended_frame w e) as Hf.
  destruct e.
  - apply (suspend_ok_frame w); [exact Hf|apply open_listener|exact Hok].
  - apply (suspend_ok_frame w); [exact Hf|apply release_listener|exact Hok].
  - apply (suspend_ok_frame w); [exact Hf|apply read_frame|exact Hok].
  - apply (suspend_ok_frame w); [exact Hf|apply write_frame|exact Hok].
  - apply (suspend_ok_frame w); [exact Hf|apply attribute_frame; exact I|exact Hok].
  - simpl in He. destruct Hok as [H0|[_ Hoff]]; [|congruence].
    left. rewrite Hf. exact H0.
  - destruct (Z.eqb_spec sem 0) as [->|Hne].
    + right. destruct w as [d bl bs ia aw ofs cl]. unfold_driver. cbn.
      destruct ia; cbn; split; reflexivity.
    + assert (Hz : (sem =? 0) = false) by (apply Z.eqb_neq; exact Hne).
      unfold exec, run, osrfx2_suspend, bind, when, return_. rewrite Hz. exact Hok.
  - destruct (Z.eqb_spec sem 0) as [->|Hne].
    + left. unfold_driver. cbn. destruct (submit =? 0); cbn; [reflexivity|].
      destruct (submit =? -113); reflexivity.
    + assert (Hz : (sem =? 0) = false) by (apply Z.eqb_neq; exact Hne).
      unfold exec, run, osrfx2_resume, bind, when, return_. rewrite Hz. exact Hok.
  - apply (suspend_ok_frame w); [exact Hf|apply attribute_frame; exact I|exact Hok].
  - apply (suspend_ok_frame w); [exact Hf|apply attribute_frame; exact I|exact Hok].
  - apply (suspend_ok_frame w); [exact Hf|apply attribute_frame; exact I|exact Hok].
  - apply (suspend_ok_frame w); [exact Hf|apply attribute_frame; exact I|exact Hok].
  - apply (suspend_ok_frame w); [exact Hf|apply attribute_frame; exact I|exact Hok].
Qed.

(** X11.  In every world reachable from a successful probe, [suspended]
    is 0 or 1, and while it is 1 the interrupt URB is not submitted: no
    entry point arms the listener of a suspended device. *)
Theorem suspended_listener_stopped (w : world) :
  reachable w ->
  suspended (fx2dev w) = 0
  \/ (suspended (fx2dev w) = 1 /\ int_urb_active w = false).
Proof.
  induction 1 as [? ? ? ? ? ? ?|w e Hr IH He].
  - left. reflexivity.
  - apply suspend_ok_step; assumption.
Qed.

Lemma suspended_listener_stopped_witness :
  int_urb_active (exec (e_suspend 0) (fx2_board 0 0)) = false.
Proof.
  assert (Hr : reachable (exec (e_suspend 0) (fx2_board 0 0))).
  { apply reach_exec; [apply reach_attached|reflexivity]. }
  destruct (suspended_listener_stopped _ Hr) as [H0|[_ H]].
  - discriminate H0.
  - exact H.
Defined.

(* ================================================================== *)
(** ** Further properties: open and release *)

Lemma open_without_device_lemma (w : world) (found intfdata : bool)
    (halt_out halt_in f_flags : Z) :
  found && intfdata = false ->
  run (osrfx2_open found intfdata halt_out halt_in f_flags) w = (Returned (- ENODEV), w).
Proof.
  intros H. destruct found, intfdata; try discriminate H; reflexivity.
Qed.

(** X12.  When the interface or its data cannot be found, [osrfx2_open]
    returns [-ENODEV] before it touches anything. *)
Theorem open_without_device (w : world) (found intfdata : bool)
    (halt_out halt_in f_flags : Z) :
  found && intfdata = false ->
  run (osrfx2_open found intfdata halt_out halt_in f_flags) w = (Returned (- ENODEV), w).
Proof. apply open_without_device_lemma. Qed.

Lemma open_without_device_witness :
  run (osrfx2_open true false 0 0 O_RDWR) (fx2_board 0 0)
  = (Returned (-19), fx2_board 0 0).
Proof.
  exact (open_without_device (fx2_board 0 0) true false 0 0 O_RDWR eq_refl).
Defined.

Lemma open_free_context (w : world) (halt_out halt_in f_flags : Z) :
  (writes f_flags = true -> bulk_write_available (fx2dev w) = 1) ->
  (reads f_flags = true -> bulk_read_available (fx2dev w) = 1) ->
  fst (run (osrfx2_open true true halt_out halt_in f_flags) w) = Returned 0
  /\ fx2dev (snd (run (osrfx2_open true true halt_out halt_in f_flags) w))
     = set_kref (kref (fx2dev w) + 1)
         (set_bulk_read_available
            (if reads f_flags then 0 else bulk_read_available (fx2dev w))
            (set_bulk_write_available
               (if writes f_flags then 0 else bulk_write_available (fx2dev w))
               (fx2dev w))).
Proof.
  intros Hw Hr.
  destruct w as [d bl bs ia aw ofs cl]. destruct d. cbn in Hw, Hr.
  unfold writes, reads, O_ACCMODE, O_WRONLY, O_RDWR, O_RDONLY in *.
  unfold_driver. unfold O_ACCMODE, O_WRONLY, O_RDWR, O_RDONLY, ENODEV, EBUSY, EPIPE.
  remember (Z.land f_flags 3) as f eqn:Hf in *. clear Hf.
  destruct (Z.eqb_spec f 1) as [E1|N1]; [|destruct (Z.eqb_spec f 2) as [E2|N2];
    [|destruct (Z.eqb_spec f 0) as [E0|N0]]];
    try subst f; cbn in Hw, Hr;
    try (specialize (Hw eq_refl); subst);
    try (specialize (Hr eq_refl); subst).
  all: cbn.
  all: once eval_s32.
  all: split; reflexivity.
Qed.

Lemma release_context (w : world) (f_flags : Z) :
  fx2dev (snd (run (osrfx2_release true f_flags) w))
  = set_kref (kref (fx2dev w) - 1)
      (set_bulk_read_available
         (if reads f_flags then s32 (bulk_read_available (fx2dev w) + 1)
          else bulk_read_available (fx2dev w))
         (set_bulk_write_available
            (if writes f_flags then s32 (bulk_write_available (fx2dev w) + 1)
             else bulk_write_available (fx2dev w))
            (fx2dev w))).
Proof.
  unfold writes, reads. unfold_driver.
  destruct ((Z.land f_flags O_ACCMODE =? O_WRONLY) || (Z.land f_flags O_ACCMODE =? O_RDWR));
    destruct ((Z.land f_flags O_ACCMODE =? O_RDONLY) || (Z.land f_flags O_ACCMODE =? O_RDWR));
    cbn; destruct (kref (fx2dev w) - 1 =? 0); cbn; destruct (fx2dev w); reflexivity.
Qed.

(** X13.  [osrfx2_open] returns 0 whenever each permit its access mode
    needs is free, whatever the two [usb_clear_halt] answer and whatever
    bits [f_flags] has outside the access mode.  It then holds exactly the
    permits of its mode (none at all for the access mode 3) and has taken
    one reference; a permit it does not need is not looked at. *)
Theorem open_succeeds_when_free (w : world) (halt_out halt_in f_flags : Z) :
  (writes f_flags = true -> bulk_write_available (fx2dev w) = 1) ->
  (reads f_flags = true -> bulk_read_available (fx2dev w) = 1) ->
  let w' := snd (run (osrfx2_open true true halt_out halt_in f_flags) w) in
  fst (run (osrfx2_open true true halt_out halt_in f_flags) w) = Returned 0
  /\ kref (fx2dev w') = kref (fx2dev w) + 1
  /\ bulk_write_available (fx2dev w')
     = (if writes f_flags then 0 else bulk_write_available (fx2dev w))
  /\ bulk_read_available (fx2dev w')
     = (if reads f_flags then 0 else bulk_read_available (fx2dev w)).
Proof.
  intros Hw Hr w'. unfold w'.
  destruct (open_free_context w halt_out halt_in f_flags Hw Hr) as [Hret Hctx].
  rewrite Hctx. split; [exact Hret|]. repeat split.
Qed.

Lemma open_succeeds_when_free_witness :
  fst (run (osrfx2_open true true (-71) 0 2048)
         (exec (e_open true true 0 0 2049) (fx2_board 0 0))) = Returned 0.
Proof.
  refine (proj1 (open_succeeds_when_free
                   (exec (e_open true true 0 0 2049) (fx2_board 0 0)) (-71) 0 2048 _ _)).
  - intros H. discriminate H.
  - intros _. reflexivity.
Defined.

(** X14.  An [osrfx2_open] that succeeds followed by the [osrfx2_release]
    of the same file leaves the device context exactly as it was: both
    pipe counters and the reference count are back. *)
Theorem open_release_roundtrip (w : world) (halt_out halt_in f_flags : Z) :
  (writes f_flags = true -> bulk_write_available (fx2dev w) = 1) ->
  (reads f_flags = true -> bulk_read_available (fx2dev w) = 1) ->
  fx2dev (snd (run (osrfx2_release true f_flags)
                 (snd (run (osrfx2_open true true halt_out halt_in f_flags) w))))
  = fx2dev w.
Proof.
  intros Hw Hr.
  destruct (open_free_context w halt_out halt_in f_flags Hw Hr) as [_ Hctx].
  rewrite release_context, Hctx.
  destruct (fx2dev w) as [i0 q0 b0 is0 os0 ia0 ib0 io0 kref0 sw0 sg0 ld0 bw0 br0 pd0 su0].
  cbn in *.
  destruct (writes f_flags); destruct (reads f_flags);
    try (rewrite (Hw eq_refl)); try (rewrite (Hr eq_refl));
    change (s32 (0 + 1)) with 1; cbn -[Z.add Z.sub];
    replace (kref0 + 1 - 1) with kref0 by lia; reflexivity.
Qed.

Lemma open_release_roundtrip_witness :
  fx2dev (snd (run (osrfx2_release true O_RDWR)
                 (snd (run (osrfx2_open true true 0 0 O_RDWR) (fx2_board 0 0)))))
  = fx2dev (fx2_board 0 0).
Proof.
  refine (open_release_roundtrip (fx2_board 0 0) 0 0 O_RDWR _ _);
    intros _; reflexivity.
Defined.

(* ================================================================== *)
(** ** Further properties: the lifetime of the device context *)

Lemma deletions_app (l m : list kcall) :
  deletions (l ++ m) = deletions l + deletions m.
Proof. unfold deletions. rewrite filter_app, length_app. lia. Qed.

Lemma lifetime_frame (w : world) (e : entry) :
  match e with
  | e_open _ _ _ _ _ | e_release _ => True
  | _ =>
      kref (fx2dev (exec e w)) = kref (fx2dev w)
      /\ interface (fx2dev (exec e w)) = interface (fx2dev w)
      /\ open_files (exec e w) = open_files w
      /\ deletions (calls (exec e w)) = deletions (calls w)
  end.
Proof.
  destruct e; try exact I.
  - crunch; count_deletions.
  - destruct new_urb as [u|]; destruct new_buf as [[a dma]|]; crunch; count_deletions.
  - crunch; count_deletions.
  - crunch; count_deletions.
  - crunch; count_deletions.
  - crunch; count_deletions.
  - crunch; count_deletions.
  - crunch; count_deletions.
  - crunch; count_deletions.
  - crunch; count_deletions.
  - crunch; count_deletions.
Qed.

Lemma open_refs (w : world) (found intfdata : bool) (halt_out halt_in f_flags : Z) :
  let r := fst (run (osrfx2_open found intfdata halt_out halt_in f_flags) w) in
  let w' := snd (run (osrfx2_open found intfdata halt_out halt_in f_flags) w) in
  interface (fx2dev w') = interface (fx2dev w)
  /\ open_files w' = open_files w
  /\ deletions (calls w') = deletions (calls w)
  /\ ((r = Returned 0 /\ kref (fx2dev w') = kref (fx2dev w) + 1)
      \/ (r <> Returned 0 /\ kref (fx2dev w') = kref (fx2dev w))).
Proof.
  unfold_driver. split_ifs; cbn; repeat split; try reflexivity; try count_deletions;
    first [ left; split; reflexivity | right; split; [discriminate|reflexivity] ].
Qed.

Lemma remove_file_length (f : Z) (files : list Z) :
  existsb (Z.eqb f) files = true ->
  S (List.length (remove_file f files)) = List.length files.
Proof.
  induction files as [|g rest IH]; intros Hin; [discriminate|].
  simpl in Hin. simpl remove_file.
  destruct (Z.eqb_spec g f) as [->|Hne]; [reflexivity|].
  destruct (Z.eqb_spec f g) as [->|_]; [contradiction|].
  simpl in Hin. simpl. rewrite (IH Hin). reflexivity.
Qed.

Lemma release_refs (w : world) (f_flags : Z) :
  let w' := exec (e_release f_flags) w in
  interface (fx2dev w') = interface (fx2dev w)
  /\ kref (fx2dev w') = kref (fx2dev w) - 1
  /\ open_files w' = remove_file f_flags (open_files w)
  /\ deletions (calls w')
     = deletions (calls w) + (if kref (fx2dev w) - 1 =? 0 then 1 else 0).
Proof.
  unfold_driver.
  destruct ((Z.land f_flags O_ACCMODE =? O_WRONLY) || (Z.land f_flags O_ACCMODE =? O_RDWR));
    destruct ((Z.land f_flags O_ACCMODE =? O_RDONLY) || (Z.land f_flags O_ACCMODE =? O_RDWR));
    cbn; destruct (kref (fx2dev w) - 1 =? 0); cbn; repeat split; count_deletions.
Qed.

Lemma disconnect_refs (w : world) :
  let w' := snd (run osrfx2_disconnect w) in
  interface (fx2dev w') = false
  /\ kref (fx2dev w') = kref (fx2dev w) - 1
  /\ open_files w' = open_files w
  /\ int_urb_active w' = false
  /\ deletions (calls w')
     = deletions (calls w) + (if kref (fx2dev w) - 1 =? 0 then 1 else 0).
Proof.
  destruct w as [d bl bs ia aw ofs cl].
  unfold osrfx2_disconnect. unfold_driver. cbn.
  destruct ia; cbn; destruct (kref d - 1 =? 0); cbn; repeat split; count_deletions.
Qed.

Lemma references_step (w : world) (ev : event) :
  allowed ev w = true -> references_ok w -> references_ok (happen ev w).
Proof.
  intros Ha [Hk Hd]. unfold references_ok.
  destruct ev as [e|].
  - pose proof (lifetime_frame w e) as Hf.
    destruct e;
      try (cbn [happen]; destruct Hf as (Fk & Fi & Ff & Fd);
           rewrite Fk, Fi, Ff, Fd; split; assumption).
    + (* osrfx2_open *)
      cbn [happen allowed] in *. apply Bool.eqb_prop in Ha. subst intfdata.
      pose proof (open_refs w found (interface (fx2dev w)) halt_out halt_in f_flags)
        as (Oi & Of & Od & Ok).
      unfold exec.
      destruct (run (osrfx2_open found (interface (fx2dev w)) halt_out halt_in f_flags) w)
        as [r w'] eqn:Hrun.
      cbn [fst snd] in *.
      destruct (interface (fx2dev w)) eqn:Hi.
      * destruct Ok as [[-> Ok]|[Hn Ok]].
        -- change (0 =? 0) with true. cbv iota.
           unfold with_open_files. cbn [fx2dev open_files calls List.length].
           rewrite Ok, Oi, Of, Od, Hd, Hk.
           destruct (Z.eqb_spec (1 + Z.of_nat (List.length (open_files w))) 0); [lia|].
           destruct (Z.eqb_spec (1 + Z.of_nat (List.length (open_files w)) + 1) 0); [lia|].
           split; lia.
        -- assert (Hw' : references_ok w').
           { unfold references_ok. rewrite Ok, Oi, Of, Od. split; assumption. }
           destruct r as [r|]; [|exact Hw'].
           destruct (Z.eqb_spec r 0) as [->|_]; [contradiction Hn; reflexivity|exact Hw'].
      * assert (Hrun' : run (osrfx2_open found false halt_out halt_in f_flags) w
                        = (Returned (- ENODEV), w)).
        { apply open_without_device_lemma. destruct found; reflexivity. }
        rewrite Hrun' in Hrun. injection Hrun as <- <-.
        change (-19 =? 0) with false. cbv iota. rewrite Hi. split; assumption.
    + (* osrfx2_release *)
      cbn [happen allowed enabled] in *.
      destruct (release_refs w f_flags) as (Ri & Rk & Rf & Rd).
      rewrite Ri, Rk, Rf, Rd, Hd, Hk.
      pose proof (remove_file_length f_flags (open_files w) Ha) as Hlen.
      destruct (interface (fx2dev w));
        repeat match goal with
               | |- context [?a =? ?b] => destruct (Z.eqb_spec a b)
               end; split; lia.
  - cbn [happen allowed] in *.
    destruct (disconnect_refs w) as (Di & Dk & Df & _ & Dd).
    rewrite Di, Dk, Df, Dd, Hd, Hk, Ha.
    repeat match goal with
           | |- context [?a =? ?b] => destruct (Z.eqb_spec a b)
           end; split; lia.
Qed.

Lemma lifetime_references_ok (w : world) : lifetime w -> references_ok w.
Proof.
  induction 1 as [? ? ? ? ? ? ?|w ev Hl IH Ha].
  - unfold references_ok. cbn. split; reflexivity.
  - apply references_step; assumption.
Qed.

(** X15.  Through every sequence of entry points and at most one detach
    after a successful probe, the reference count is the number of open
    files plus one while the device is attached, and [osrfx2_delete] has
    run exactly once if the device is detached and no file is open, and
    not at all otherwise: the context outlives the detach as long as a
    file is open, and is never deleted twice. *)
Theorem context_deleted_once (w : world) :
  lifetime w ->
  kref (fx2dev w)
  = (if interface (fx2dev w) then 1 else 0) + Z.of_nat (List.length (open_files w))
  /\ deletions (calls w)
     = (if negb (interface (fx2dev w)) && (Nat.eqb (List.length (open_files w)) 0)
        then 1 else 0).
Proof.
  intros Hl. destruct (lifetime_references_ok w Hl) as [Hk Hd].
  split; [exact Hk|]. rewrite Hd, Hk.
  destruct (interface (fx2dev w)); destruct (open_files w) as [|f rest]; cbn [List.length negb andb Nat.eqb];
    match goal with
    | |- context [?a =? ?b] => destruct (Z.eqb_spec a b)
    end; lia.
Qed.

Lemma context_deleted_once_witness :
  let w := happen (ev_entry (e_release O_RDONLY))
             (happen ev_disconnect
                (happen (ev_entry (e_open true true 0 0 O_RDONLY)) (fx2_board 0 0))) in
  deletions (calls w) = 1 /\ kref (fx2dev w) = 0.
Proof.
  intros w.
  assert (Hl : lifetime w).
  { repeat (apply life_event; [|reflexivity]). apply life_attached. }
  destruct (context_deleted_once w Hl) as [Hk Hd].
  split; [rewrite Hd|rewrite Hk]; reflexivity.
Defined.

(* ================================================================== *)
(** ** Further properties: the probe *)

Lemma record_endpoint_fields (d : osrfx2) (e : usb_endpoint_descriptor) :
  record_endpoint d e
  = mk_osrfx2 (interface d) (FieldEventQueue d) (int_in_buffer d)
      (if usb_endpoint_is_bulk_in e then wMaxPacketSize e else bulk_in_size d)
      (if usb_endpoint_is_bulk_out e then wMaxPacketSize e else bulk_out_size d)
      (if usb_endpoint_is_int_in e then bEndpointAddress e else int_in_endpointAddr d)
      (if usb_endpoint_is_bulk_in e then bEndpointAddress e else bulk_in_endpointAddr d)
      (if usb_endpoint_is_bulk_out e then bEndpointAddress e else bulk_out_endpointAddr d)
      (kref d) (switches d) (segments d) (leds d) (bulk_write_available d)
      (bulk_read_available d) (pending_data d) (suspended d).
Proof.
  unfold record_endpoint.
  destruct (usb_endpoint_is_bulk_in e), (usb_endpoint_is_bulk_out e),
    (usb_endpoint_is_int_in e); destruct d; reflexivity.
Qed.

Lemma scan_snoc (l : list usb_endpoint_descriptor) (e : usb_endpoint_descriptor) (d : osrfx2) :
  scan_endpoints (l ++ [e]) d = record_endpoint (scan_endpoints l d) e.
Proof. unfold scan_endpoints. rewrite fold_left_app. reflexivity. Qed.

Lemma last_matching_snoc (test : usb_endpoint_descriptor -> bool)
    (l : list usb_endpoint_descriptor) (e : usb_endpoint_descriptor) :
  last_matching test (l ++ [e]) = if test e then Some e else last_matching test l.
Proof. unfold last_matching. rewrite rev_app_distr. reflexivity. Qed.

(** The endpoint fields after the loop, and the fields it leaves alone. *)
Lemma scan_fields (l : list usb_endpoint_descriptor) (d : osrfx2) :
  scan_endpoints l d
  = mk_osrfx2 (interface d) (FieldEventQueue d) (int_in_buffer d)
      (match last_matching usb_endpoint_is_bulk_in l with
       | Some e => wMaxPacketSize e | None => bulk_in_size d end)
      (match last_matching usb_endpoint_is_bulk_out l with
       | Some e => wMaxPacketSize e | None => bulk_out_size d end)
      (match last_matching usb_endpoint_is_int_in l with
       | Some e => bEndpointAddress e | None => int_in_endpointAddr d end)
      (match last_matching usb_endpoint_is_bulk_in l with
       | Some e => bEndpointAddress e | None => bulk_in_endpointAddr d end)
      (match last_matching usb_endpoint_is_bulk_out l with
       | Some e => bEndpointAddress e | None => bulk_out_endpointAddr d end)
      (kref d) (switches d) (segments d) (leds d) (bulk_write_available d)
      (bulk_read_available d) (pending_data d) (suspended d).
Proof.
  induction l as [|e l IH] using rev_ind.
  - destruct d. reflexivity.
  - rewrite scan_snoc, record_endpoint_fields, IH, !last_matching_snoc. cbn.
    destruct (usb_endpoint_is_bulk_in e), (usb_endpoint_is_bulk_out e),
      (usb_endpoint_is_int_in e); reflexivity.
Qed.


Lemma last_matching_none (test : usb_endpoint_descriptor -> bool)
    (l : list usb_endpoint_descriptor) :
  existsb test l = false -> last_matching test l = None.
Proof.
  induction l as [|e l IH] using rev_ind; intros H; [reflexivity|].
  rewrite existsb_app in H. apply orb_false_iff in H as [Hl He].
  simpl in He. rewrite orb_false_r in He.
  rewrite last_matching_snoc, He. apply IH. exact Hl.
Qed.

(** X17.  When every allocation and registration step of the probe
    succeeds and the interface has an endpoint of each kind with a
    non-zero address, [osrfx2_probe] returns 0 and leaves the context
    zeroed except for the endpoints found, one reference, both pipe
    permits free and the interrupt URB submitted; it returns 0 even when
    [usb_register_dev] fails, only with the interface data cleared. *)
Theorem probe_success (eps : list usb_endpoint_descriptor) (reg leds0 segments0 : Z) :
  let d := scan_endpoints eps zeroed in
  int_in_endpointAddr d <> 0 ->
  bulk_in_endpointAddr d <> 0 ->
  bulk_out_endpointAddr d <> 0 ->
  run (osrfx2_probe (mk_probe_env true 0 0 0 eps true true 0 true true reg))
    (plugged leds0 segments0)
  = (Returned (0, reg =? 0),
     attached (int_in_endpointAddr d) (bulk_in_endpointAddr d) (bulk_out_endpointAddr d)
       (bulk_in_size d) (bulk_out_size d) leds0 segments0).
Proof.
  intros d Hi Hb Ho. unfold d in *. clear d.
  rewrite scan_fields in *. cbn in Hi, Hb, Ho.
  apply Z.eqb_neq in Hi, Hb, Ho.
  unfold_probe. cbn -[scan_endpoints]. rewrite !scan_fields. cbn.
  rewrite Hi, Hb, Ho. cbn.
  destruct (reg =? 0); reflexivity.
Qed.

Lemma probe_success_witness :
  fst (run (osrfx2_probe
              (mk_probe_env true 0 0 0
                 [mk_endpoint 0x81 3 64 1; mk_endpoint 0x06 2 512 0; mk_endpoint 0x88 2 512 0]
                 true true 0 true true 0))
         (plugged 0 0)) = Returned (0, true)
  /\ snd (run (osrfx2_probe
              (mk_probe_env true 0 0 0
                 [mk_endpoint 0x81 3 64 1; mk_endpoint 0x06 2 512 0; mk_endpoint 0x88 2 512 0]
                 true true 0 true true 0))
         (plugged 0 0)) = fx2_board 0 0.
Proof.
  assert (H1 : int_in_endpointAddr (scan_endpoints
            [mk_endpoint 0x81 3 64 1; mk_endpoint 0x06 2 512 0; mk_endpoint 0x88 2 512 0]
            zeroed) <> 0) by discriminate.
  assert (H2 : bulk_in_endpointAddr (scan_endpoints
            [mk_endpoint 0x81 3 64 1; mk_endpoint 0x06 2 512 0; mk_endpoint 0x88 2 512 0]
            zeroed) <> 0) by discriminate.
  assert (H3 : bulk_out_endpointAddr (scan_endpoints
            [mk_endpoint 0x81 3 64 1; mk_endpoint 0x06 2 512 0; mk_endpoint 0x88 2 512 0]
            zeroed) <> 0) by discriminate.
  pose proof (probe_success _ 0 0 0 H1 H2 H3) as H.
  rewrite H. split; reflexivity.
Defined.

(** X18.  Once the context is allocated, [osrfx2_probe] deletes it on
    every error return, exactly once, by dropping its only reference, and
    keeps it with one reference when it returns 0. *)
Theorem probe_failure_deletes (env : probe_env) (leds0 segments0 : Z) :
  context_alloc env = true ->
  exists retval intfdata,
    fst (run (osrfx2_probe env) (plugged leds0 segments0)) = Returned (retval, intfdata)
    /\ deletions (calls (snd (run (osrfx2_probe env) (plugged leds0 segments0))))
       = (if retval =? 0 then 0 else 1)
    /\ kref (fx2dev (snd (run (osrfx2_probe env) (plugged leds0 segments0))))
       = (if retval =? 0 then 1 else 0).
Proof.
  intros Ha. destruct env as [ca cs cb c7 eps ib iu sub bi bo reg].
  cbn in Ha. subst ca.
  unfold_probe. cbn -[scan_endpoints].
  destruct (Z.eqb_spec cs 0) as [->|Hcs]; cbn -[scan_endpoints]; [|probe_done].
  destruct (Z.eqb_spec cb 0) as [->|Hcb]; cbn -[scan_endpoints]; [|probe_done].
  destruct (Z.eqb_spec c7 0) as [->|Hc7]; cbn -[scan_endpoints]; [|probe_done].
  rewrite !scan_fields. cbn.
  match goal with
  | |- context [if ?b then _ else _] => destruct b eqn:Haddr
  end; cbn; [probe_done|].
  destruct ib; cbn; [|probe_done].
  destruct iu; cbn; [|probe_done].
  destruct (Z.eqb_spec sub 0) as [->|Hsub]; cbn; [|probe_done].
  destruct bi; cbn; [|probe_done].
  destruct bo; cbn; probe_done.
Qed.

Lemma probe_failure_deletes_witness :
  exists retval intfdata,
    fst (run (osrfx2_probe (mk_probe_env true 0 (-12) 0 [] true true 0 true true 0))
           (plugged 0 0)) = Returned (retval, intfdata)
    /\ deletions (calls (snd (run (osrfx2_probe
                                     (mk_probe_env true 0 (-12) 0 [] true true 0 true true 0))
                                  (plugged 0 0))))
       = (if retval =? 0 then 0 else 1)
    /\ kref (fx2dev (snd (run (osrfx2_probe
                                 (mk_probe_env true 0 (-12) 0 [] true true 0 true true 0))
                              (plugged 0 0))))
       = (if retval =? 0 then 1 else 0).
Proof.
  exact (probe_failure_deletes (mk_probe_env true 0 (-12) 0 [] true true 0 true true 0)
           0 0 eq_refl).
Defined.

(** X19.  When the interface lacks an interrupt-in, a bulk-in or a
    bulk-out endpoint, [osrfx2_probe] returns [-ENODEV] (the earlier steps
    having succeeded), has deleted the context, and has put nothing on the
    bus: the interrupt URB is not submitted. *)
Theorem probe_missing_endpoint (eps : list usb_endpoint_descriptor)
    (ib iu bi bo : bool) (sub reg leds0 segments0 : Z) :
  existsb usb_endpoint_is_int_in eps
  && existsb usb_endpoint_is_bulk_in eps
  && existsb usb_endpoint_is_bulk_out eps = false ->
  let w' := snd (run (osrfx2_probe (mk_probe_env true 0 0 0 eps ib iu sub bi bo reg))
                   (plugged leds0 segments0)) in
  fst (run (osrfx2_probe (mk_probe_env true 0 0 0 eps ib iu sub bi bo reg))
         (plugged leds0 segments0)) = Returned (- ENODEV, true)
  /\ deletions (calls w') = 1
  /\ transfers (calls w') = 0
  /\ int_urb_active w' = false.
Proof.
  intros Hmiss w'. unfold w'. clear w'.
  unfold_probe. cbn -[scan_endpoints]. rewrite !scan_fields. cbn.
  assert (Hz : (match last_matching usb_endpoint_is_int_in eps with
                | Some e => bEndpointAddress e | None => 0 end =? 0)
               || (match last_matching usb_endpoint_is_bulk_in eps with
                   | Some e => bEndpointAddress e | None => 0 end =? 0)
               || (match last_matching usb_endpoint_is_bulk_out eps with
                   | Some e => bEndpointAddress e | None => 0 end =? 0) = true).
  { apply andb_false_iff in Hmiss as [Hmiss|Hmiss];
      [apply andb_false_iff in Hmiss as [Hmiss|Hmiss]|];
      rewrite (last_matching_none _ _ Hmiss); cbn;
      rewrite ?orb_true_r; reflexivity. }
  rewrite Hz. cbn. repeat split.
Qed.

Lemma probe_missing_endpoint_witness :
  fst (run (osrfx2_probe
              (mk_probe_env true 0 0 0
                 [mk_endpoint 0x81 3 64 1; mk_endpoint 0x06 2 512 0]
                 true true 0 true true 0))
         (plugged 0 0)) = Returned (-19, true).
Proof.
  exact (proj1 (probe_missing_endpoint
                  [mk_endpoint 0x81 3 64 1; mk_endpoint 0x06 2 512 0]
                  true true true true 0 0 0 0 eq_refl)).
Defined.

(** X20.  When a bulk buffer cannot be allocated, the probe has already
    submitted the interrupt URB: it returns [-ENOMEM] and deletes the
    context without killing that URB, which is still in flight. *)
Theorem probe_bulk_alloc_failure (eps : list usb_endpoint_descriptor)
    (bi bo : bool) (reg leds0 segments0 : Z) :
  let d := scan_endpoints eps zeroed in
  int_in_endpointAddr d <> 0 ->
  bulk_in_endpointAddr d <> 0 ->
  bulk_out_endpointAddr d <> 0 ->
  bi && bo = false ->
  let w' := snd (run (osrfx2_probe (mk_probe_env true 0 0 0 eps true true 0 bi bo reg))
                   (plugged leds0 segments0)) in
  fst (run (osrfx2_probe (mk_probe_env true 0 0 0 eps true true 0 bi bo reg))
         (plugged leds0 segments0)) = Returned (- ENOMEM, true)
  /\ deletions (calls w') = 1
  /\ int_urb_active w' = true
  /\ forallb (fun k => match k with k_usb_kill_urb _ => false | _ => true end)
       (calls w') = true.
Proof.
  intros d Hi Hb Ho Hfail w'. unfold w', d in *. clear w' d.
  rewrite scan_fields in *. cbn in Hi, Hb, Ho.
  apply Z.eqb_neq in Hi, Hb, Ho.
  unfold_probe. cbn -[scan_endpoints]. rewrite !scan_fields. cbn.
  rewrite Hi, Hb, Ho. cbn.
  destruct bi, bo; try discriminate Hfail; cbn; repeat split.
Qed.

Lemma probe_bulk_alloc_failure_witness :
  int_urb_active
    (snd (run (osrfx2_probe
                 (mk_probe_env true 0 0 0
                    [mk_endpoint 0x81 3 64 1; mk_endpoint 0x06 2 512 0; mk_endpoint 0x88 2 512 0]
                    true true 0 true false 0))
            (plugged 0 0))) = true.
Proof.
  assert (H1 : int_in_endpointAddr (scan_endpoints
            [mk_endpoint 0x81 3 64 1; mk_endpoint 0x06 2 512 0; mk_endpoint 0x88 2 512 0]
            zeroed) <> 0) by discriminate.
  assert (H2 : bulk_in_endpointAddr (scan_endpoints
            [mk_endpoint 0x81 3 64 1; mk_endpoint 0x06 2 512 0; mk_endpoint 0x88 2 512 0]
            zeroed) <> 0) by discriminate.
  assert (H3 : bulk_out_endpointAddr (scan_endpoints
            [mk_endpoint 0x81 3 64 1; mk_endpoint 0x06 2 512 0; mk_endpoint 0x88 2 512 0]
            zeroed) <> 0) by discriminate.
  destruct (probe_bulk_alloc_failure _ true false 0 0 0 H1 H2 H3 eq_refl) as (_ & _ & H & _).
  exact H.
Defined.

(* ================================================================== *)
(** ** Further properties: the test application on top of the driver *)

Lemma decimal_bytes :
  all_below 256 (fun v =>
    (parse_value (snprintf_d v ++ String zero EmptyString) =? v)
    && (1 <=? strlen (snprintf_d v))
    && (strlen (snprintf_d v) <=? 3)) = true.
Proof. vm_compute. reflexivity. Qed.

Lemma decimal_byte_facts (v : Z) :
  0 <= v <= 255 ->
  parse_value (snprintf_d v ++ String zero EmptyString) = v
  /\ 1 <= strlen (snprintf_d v) <= 3.
Proof.
  intros Hv.
  pose proof (all_below_sound 256 _ decimal_bytes v ltac:(simpl; lia)) as Hc.
  cbv beta in Hc.
  apply andb_true_iff in Hc as [Hc H3]. apply andb_true_iff in Hc as [Hp H1].
  apply Z.eqb_eq in Hp. apply Z.leb_le in H1, H3. lia.
Qed.

Lemma u8_byte (x : Z) : 0 <= u8 x <= 255.
Proof. pose proof (u8_range x). lia. Qed.

Lemma set_bargraph_returns (w : world) (ctl : Z) (buf : string) (count : Z) :
  fst (run (set_bargraph ctl buf count) w) = Returned (ssize_t count).
Proof.
  unfold run, set_bargraph, usb_control_msg, bind, when.
  destruct (parse_value buf >? 255); cbn;
    destruct (1 <=? ctl); cbn; destruct (ctl <? 0); reflexivity.
Qed.

Lemma set_7segment_returns (w : world) (ctl : Z) (buf : string) (count : Z) :
  fst (run (set_7segment ctl buf count) w) = Returned (ssize_t count).
Proof.
  unfold run, set_7segment, usb_control_msg, bind, when.
  destruct (parse_value buf >? 255); cbn;
    destruct (1 <=? ctl); cbn; destruct (ctl <? 0); reflexivity.
Qed.

(** What a writer of the application amounts to once the attribute is
    open: one call of the store function on the decimal text. *)
Lemma writer_run (store : string -> Z -> M Z Z) (w : world) (fd value : Z) :
  fd <> -1 ->
  (forall buf count w0, fst (run (store buf count) w0) = Returned (ssize_t count)) ->
  run (when (fd =? -1) (return_ (-1)) ;;
       count <- sysfs_write store (snprintf_d (u8 value))
                  (strlen (snprintf_d (u8 value)) + 1) ;;
       when (negb (count =? strlen (snprintf_d (u8 value)) + 1)) (return_ (-1)) ;;
       return_ 0)%drv w
  = (Returned 0,
     snd (run (store (snprintf_d (u8 value) ++ String zero EmptyString)%string
                 (strlen (snprintf_d (u8 value)) + 1)) w)).
Proof.
  intros Hfd Hret.
  assert (Hz : (fd =? -1) = false) by (apply Z.eqb_neq; exact Hfd).
  destruct (decimal_byte_facts (u8 value) (u8_byte value)) as [_ Hlen].
  set (text := snprintf_d (u8 value)) in *.
  set (len := strlen text + 1) in *.
  assert (Hs : ssize_t len = len) by (apply ssize_t_small; unfold len; lia).
  specialize (Hret (text ++ String zero EmptyString)%string len w).
  unfold run at 1. unfold bind, when, sysfs_write, return_, ret. rewrite Hz.
  destruct (run (store (text ++ String zero EmptyString)%string len) w) as [r w'].
  cbn [fst snd] in *. subst r. rewrite Hs.
  assert (Hn : (len <? 0) = false) by (apply Z.ltb_ge; unfold len; lia).
  rewrite Hn, Z.eqb_refl. reflexivity.
Qed.

Lemma substring_all (s : string) : substring 0 (String.length s) s = s.
Proof. induction s as [|c s IH]; [reflexivity|]. simpl. rewrite IH. reflexivity. Qed.

(** What a reader of the application amounts to when the show function
    returns eight characters. *)
Lemma reader_run (show : string -> M (Z * string) (Z * string)) (w w' : world)
    (fd : Z) (heap : bool) (s : string) :
  fd <> -1 ->
  run (show EmptyString) w = (Returned (8, s), w') ->
  String.length s = 8%nat ->
  run (when (fd =? -1) (return_ None) ;;
       r <- sysfs_read show BUF_LEN ;;
       let '(count, attrvalue) := r in
       when (count =? 8) (return_ (strdup heap attrvalue)) ;;
       return_ None)%drv w
  = (Returned (strdup heap s), w').
Proof.
  intros Hfd Hshow Hlen.
  assert (Hz : (fd =? -1) = false) by (apply Z.eqb_neq; exact Hfd).
  unfold run at 1. unfold bind, when, sysfs_read, return_, ret. rewrite Hz, Hshow.
  change (8 <? 0) with false. cbv iota.
  change (Z.to_nat (Z.min 8 BUF_LEN)) with 8%nat. rewrite <- Hlen, substring_all.
  reflexivity.
Qed.

Lemma pair_run {R} (c : M R R) (w : world) :
  run c w = (fst (run c w), snd (run c w)).
Proof. destruct (run c w). reflexivity. Qed.

Lemma switches_format_length (x : Z) : String.length (switches_format x) = 8%nat.
Proof.
  unfold switches_format, bit_str.
  repeat match goal with
         | |- context [if ?b then _ else _] => destruct b
         end; reflexivity.
Qed.

(** X21.  With the attribute files open and the control transfers moving
    their byte, on a device that is not suspended, what the application
    reads back after [set_bargraph_state] or [set_7segment_state] is the
    eight binary digits, most significant first, of the byte it passed. *)
Theorem app_set_then_get (w : world) (fd1 fd2 c1 c2 value : Z) :
  fd1 <> -1 -> fd2 <> -1 -> suspended (fx2dev w) = 0 -> 1 <= c1 -> 1 <= c2 ->
  fst (run (get_bargraph_state fd2 true c2)
         (snd (run (set_bargraph_state fd1 c1 value) w)))
  = Returned (Some (switches_format (u8 value)))
  /\ fst (run (get_7segment_state fd2 true c2)
            (snd (run (set_7segment_state fd1 c1 value) w)))
     = Returned (Some (switches_format (u8 value))).
Proof.
  intros Hf1 Hf2 Hs H1 H2.
  destruct (decimal_byte_facts (u8 value) (u8_byte value)) as [Hparse _].
  destruct (table_facts (u8 value) (u8_byte value)) as (Hub & Hus & Hfb & Hfs & _).
  split.
  - unfold set_bargraph_state. rewrite (writer_run (set_bargraph c1) w fd1 value Hf1)
      by (intros; apply set_bargraph_returns).
    cbn [snd].
    set (w1 := snd (run (set_bargraph c1 _ _) w)).
    destruct (set_bargraph_moved w c1
                (snprintf_d (u8 value) ++ String zero EmptyString)%string
                (strlen (snprintf_d (u8 value)) + 1) H1) as [Hboard Hsusp].
    fold w1 in Hboard, Hsusp. rewrite Hs in Hsusp. rewrite Hparse in Hboard.
    destruct (get_bargraph_moved w1 c2 EmptyString Hsusp H2) as [Hget _].
    rewrite Hboard, Hub, Hfb, (sprintf_byte _ (u8_byte value)) in Hget.
    unfold get_bargraph_state.
    rewrite (reader_run (get_bargraph c2) w1 (snd (run (get_bargraph c2 EmptyString) w1))
               fd2 true (switches_format (u8 value)) Hf2).
    + reflexivity.
    + rewrite (pair_run (get_bargraph c2 EmptyString) w1), Hget. reflexivity.
    + apply switches_format_length.
  - unfold set_7segment_state. rewrite (writer_run (set_7segment c1) w fd1 value Hf1)
      by (intros; apply set_7segment_returns).
    cbn [snd].
    set (w1 := snd (run (set_7segment c1 _ _) w)).
    destruct (set_7segment_moved w c1
                (snprintf_d (u8 value) ++ String zero EmptyString)%string
                (strlen (snprintf_d (u8 value)) + 1) H1) as [Hboard Hsusp].
    fold w1 in Hboard, Hsusp. rewrite Hs in Hsusp. rewrite Hparse in Hboard.
    destruct (get_7segment_moved w1 c2 EmptyString Hsusp H2) as [Hget _].
    rewrite Hboard, Hus, Hfs, (sprintf_byte _ (u8_byte value)) in Hget.
    unfold get_7segment_state.
    rewrite (reader_run (get_7segment c2) w1 (snd (run (get_7segment c2 EmptyString) w1))
               fd2 true (switches_format (u8 value)) Hf2).
    + reflexivity.
    + rewrite (pair_run (get_7segment c2 EmptyString) w1), Hget. reflexivity.
    + apply switches_format_length.
Qed.

Lemma app_set_then_get_witness :
  fst (run (get_bargraph_state 3 true 1)
         (snd (run (set_bargraph_state 3 1 0x81) (fx2_board 0 0))))
  = Returned (Some "10000001"%string).
Proof.
  assert (Hfd : 3 <> -1) by discriminate.
  destruct (app_set_then_get (fx2_board 0 0) 3 3 1 1 0x81 Hfd Hfd eq_refl
              ltac:(lia) ltac:(lia)) as [H _].
  exact H.
Defined.

Lemma set_bargraph_not_moved (w : world) (ctl : Z) (buf : string) (count : Z) :
  ctl < 1 -> board_leds (snd (run (set_bargraph ctl buf count) w)) = board_leds w.
Proof.
  intros Hc.
  assert (H1 : (1 <=? ctl) = false) by (apply Z.leb_gt; exact Hc).
  unfold run, set_bargraph, usb_control_msg, bind, when.
  destruct (parse_value buf >? 255); cbn; rewrite H1; cbn;
    destruct (ctl <? 0); reflexivity.
Qed.

Lemma set_7segment_not_moved (w : world) (ctl : Z) (buf : string) (count : Z) :
  ctl < 1 -> board_segments (snd (run (set_7segment ctl buf count) w)) = board_segments w.
Proof.
  intros Hc.
  assert (H1 : (1 <=? ctl) = false) by (apply Z.leb_gt; exact Hc).
  unfold run, set_7segment, usb_control_msg, bind, when.
  destruct (parse_value buf >? 255); cbn; rewrite H1; cbn;
    destruct (ctl <? 0); reflexivity.
Qed.

(** X22.  Once the attribute file is open, [set_bargraph_state] and
    [set_7segment_state] return 0 whatever the control transfer of the
    driver answers: when the transfer moved nothing the board keeps its
    register and the application is not told. *)
Theorem app_set_reports_success (w : world) (fd ctl value : Z) :
  fd <> -1 ->
  fst (run (set_bargraph_state fd ctl value) w) = Returned 0
  /\ fst (run (set_7segment_state fd ctl value) w) = Returned 0
  /\ (ctl < 1 ->
      board_leds (snd (run (set_bargraph_state fd ctl value) w)) = board_leds w
      /\ board_segments (snd (run (set_7segment_state fd ctl value) w))
         = board_segments w).
Proof.
  intros Hfd.
  unfold set_bargraph_state, set_7segment_state.
  rewrite (writer_run (set_bargraph ctl) w fd value Hfd)
    by (intros; apply set_bargraph_returns).
  rewrite (writer_run (set_7segment ctl) w fd value Hfd)
    by (intros; apply set_7segment_returns).
  cbn [fst snd]. repeat split.
  - apply set_bargraph_not_moved. assumption.
  - apply set_7segment_not_moved. assumption.
Qed.

Lemma app_set_reports_success_witness :
  fst (run (set_bargraph_state 3 (- ETIMEDOUT) 0x81) (fx2_board 0xFF 0)) = Returned 0
  /\ board_leds (snd (run (set_bargraph_state 3 (- ETIMEDOUT) 0x81) (fx2_board 0xFF 0)))
     = 0xFF.
Proof.
  assert (Hfd : 3 <> -1) by discriminate.
  destruct (app_set_reports_success (fx2_board 0xFF 0) 3 (- ETIMEDOUT) 0x81 Hfd)
    as (Hr & _ & Hb).
  split; [exact Hr|]. destruct (Hb ltac:(unfold ETIMEDOUT; lia)) as [H _]. exact H.
Defined.

Lemma reader_miss (show : string -> M (Z * string) (Z * string)) (w w' : world)
    (fd n : Z) (heap : bool) (s : string) :
  run (show EmptyString) w = (Returned (n, s), w') ->
  n < 8 ->
  run (when (fd =? -1) (return_ None) ;;
       r <- sysfs_read show BUF_LEN ;;
       let '(count, attrvalue) := r in
       when (count =? 8) (return_ (strdup heap attrvalue)) ;;
       return_ None)%drv w
  = (Returned None, if fd =? -1 then w else w').
Proof.
  intros Hshow Hn.
  unfold run at 1. unfold bind, when, sysfs_read, return_, ret.
  destruct (fd =? -1); [reflexivity|]. rewrite Hshow.
  destruct (Z.ltb_spec n 0) as [Hneg|Hpos]; [reflexivity|].
  assert (Hm : (Z.min n BUF_LEN =? 8) = false).
  { apply Z.eqb_neq. unfold BUF_LEN. lia. }
  rewrite Hm. reflexivity.
Qed.

(** X23.  While the device is suspended, [get_bargraph_state] and
    [get_7segment_state] return NULL and change nothing: the two
    characters the driver returns are not the eight the application
    insists on.  [get_7segment_state] also returns NULL when the control
    read fails. *)
Theorem app_get_null (w : world) (fd ctl : Z) (heap : bool) :
  (suspended (fx2dev w) <> 0 ->
   run (get_bargraph_state fd heap ctl) w = (Returned None, w)
   /\ run (get_7segment_state fd heap ctl) w = (Returned None, w))
  /\ (suspended (fx2dev w) = 0 -> ctl < 0 ->
      fst (run (get_7segment_state fd heap ctl) w) = Returned None).
Proof.
  split.
  - intros Hs.
    assert (Hz : (suspended (fx2dev w) =? 0) = false) by (apply Z.eqb_neq; exact Hs).
    assert (Hb : run (get_bargraph ctl EmptyString) w = (Returned (2, "S "%string), w)).
    { unfold run, get_bargraph, bind, when, load. rewrite Hz. reflexivity. }
    assert (H7 : run (get_7segment ctl EmptyString) w = (Returned (2, "S "%string), w)).
    { unfold run, get_7segment, bind, when, load. rewrite Hz. reflexivity. }
    unfold get_bargraph_state, get_7segment_state.
    rewrite (reader_miss (get_bargraph ctl) w w fd 2 heap _ Hb) by lia.
    rewrite (reader_miss (get_7segment ctl) w w fd 2 heap _ H7) by lia.
    destruct (fd =? -1); split; reflexivity.
  - intros Hs Hc.
    pose proof (get_7segment_failure w ctl EmptyString Hs Hc) as Hf.
    unfold get_7segment_state.
    rewrite (reader_miss (get_7segment ctl) w
               (snd (run (get_7segment ctl EmptyString) w)) fd ctl heap EmptyString).
    + reflexivity.
    + rewrite (pair_run (get_7segment ctl EmptyString) w), Hf. reflexivity.
    + lia.
Qed.

Lemma app_get_null_witness :
  run (get_bargraph_state 3 true 1) (snd (run (osrfx2_suspend 0) (fx2_board 0xFF 0)))
  = (Returned None, snd (run (osrfx2_suspend 0) (fx2_board 0xFF 0))).
Proof.
  destruct (app_get_null (snd (run (osrfx2_suspend 0) (fx2_board 0xFF 0))) 3 1 true)
    as [H _].
  assert (Hs : suspended (fx2dev (snd (run (osrfx2_suspend 0) (fx2_board 0xFF 0)))) <> 0)
    by discriminate.
  exact (proj1 (H Hs)).
Defined.

(** X24.  [get_switches_state] returns NULL only when the attribute file
    does not open or memory runs out: the driver always hands it eight
    characters, the cached switches byte most significant bit first, and
    reading them changes nothing. *)
Theorem app_get_switches (w : world) (fd : Z) (heap : bool) :
  fd <> -1 ->
  run (get_switches_state fd heap) w
  = (Returned (strdup heap (switches_format (switches (fx2dev w)))), w).
Proof.
  intros Hfd. unfold get_switches_state.
  apply (reader_run (fun _ => get_switches) w w fd heap _ Hfd).
  - unfold run, get_switches, bind, load, return_, sprintf.
    rewrite switches_format_length. reflexivity.
  - apply switches_format_length.
Qed.

Lemma app_get_switches_witness :
  run (get_switches_state 3 true)
    (snd (run (complete_int_urb 0 0x5A 0) (fx2_board 0 0)))
  = (Returned (Some "01011010"%string),
     snd (run (complete_int_urb 0 0x5A 0) (fx2_board 0 0))).
Proof.
  assert (Hfd : 3 <> -1) by discriminate.
  exact (app_get_switches (snd (run (complete_int_urb 0 0x5A 0) (fx2_board 0 0)))
           3 true Hfd).
Defined.
